(** * stitch_videos.py: a shallow embedding and its checked properties

    The script discovers video files, selects a sub-range, re-encodes
    every clip to a 4:3 frame with ffmpeg and concatenates the results.
    Everything the script asks of the outside (glob, ffmpeg, ffprobe,
    the scratch directory) is a field of a [world] record; what the
    script does to the outside (prints, subprocess invocations, file
    writes) is recorded as a trace of events. *)

From Stdlib Require Import ZArith List String Ascii Bool Lia.
From Stdlib Require Import Sorting.Sorted Sorting.Permutation.
From Stdlib Require Import DecimalString.
From Stdlib Require DecimalN.
Import ListNotations.

Local Open Scope string_scope.
Local Open Scope Z_scope.

(** ** Python values used by the script *)

Module Py.

(** [str(n)] and the [{n}] field of an f-string, for an [int]. *)
Definition str_of_int (n : Z) : string :=
  NilZero.string_of_int (Z.to_int n).

(** [f"{n:05d}"]: sign, then the digits padded with zeros so that the
    whole field is at least five characters wide. *)
Fixpoint zeros (k : nat) : string :=
  match k with
  | O => EmptyString
  | S k' => String "0" (zeros k')
  end.

Definition fmt_05d (n : Z) : string :=
  let digits := NilZero.string_of_uint (N.to_uint (Z.to_N (Z.abs n))) in
  let sign := if n <? 0 then "-" else "" in
  let used := (String.length sign + String.length digits)%nat in
  sign ++ zeros (5 - used) ++ digits.

(** [sep.join(parts)] *)
Definition join (sep : string) (parts : list string) : string :=
  String.concat sep parts.

(** [s.lower()] of an ASCII text.  A text with a non-ASCII character
    is not decided here: see [str_lower] in the script. *)
Definition lower_ascii (c : ascii) : ascii :=
  let n := nat_of_ascii c in
  if ((65 <=? n) && (n <=? 90))%nat then ascii_of_nat (n + 32) else c.

Fixpoint lower (s : string) : string :=
  match s with
  | EmptyString => EmptyString
  | String c s' => String (lower_ascii c) (lower s')
  end.

(** [s.split(c)] for a one-character separator: never an empty list. *)
Fixpoint split (sep : ascii) (s : string) : list string :=
  match s with
  | EmptyString => [EmptyString]
  | String c s' =>
      if Ascii.eqb c sep then EmptyString :: split sep s'
      else match split sep s' with
           | [] => [String c EmptyString]
           | w :: ws => String c w :: ws
           end
  end.

(** [s.replace(c, by)] for a one-character pattern. *)
Fixpoint replace_char (c : ascii) (by_ : string) (s : string) : string :=
  match s with
  | EmptyString => EmptyString
  | String d s' =>
      if Ascii.eqb d c then by_ ++ replace_char c by_ s'
      else String d (replace_char c by_ s')
  end.

(** [needle in s] *)
Fixpoint contains (needle s : string) : bool :=
  String.prefix needle s
  || match s with
     | EmptyString => false
     | String _ s' => contains needle s'
     end.

(** *** [int(s)] on ASCII text

    Surrounding white space (tab to carriage return, and space) is
    dropped, one sign is allowed, and the digits may be grouped by
    single underscores.  A literal of more than 640 digits is refused
    when it has more digits than the interpreter's limit
    ([sys.get_int_max_str_digits()], 4300 unless configured, 0 for no
    limit).  [None] stands for [ValueError].  A text with a non-ASCII
    character is not decided here: see [int] in the script. *)
Definition is_ascii_char (c : ascii) : bool := (nat_of_ascii c <? 128)%nat.

Fixpoint is_ascii (s : string) : bool :=
  match s with
  | EmptyString => true
  | String c s' => is_ascii_char c && is_ascii s'
  end.

Definition is_space (c : ascii) : bool :=
  let n := nat_of_ascii c in
  ((n =? 32) || ((9 <=? n) && (n <=? 13)))%nat.

Definition is_digit (c : ascii) : bool :=
  let n := nat_of_ascii c in ((48 <=? n) && (n <=? 57))%nat.

Definition digit_val (c : ascii) : Z := Z.of_nat (nat_of_ascii c) - 48.

Fixpoint lstrip (s : string) : string :=
  match s with
  | String c s' => if is_space c then lstrip s' else s
  | EmptyString => EmptyString
  end.

Fixpoint rstrip (s : string) : string :=
  match s with
  | EmptyString => EmptyString
  | String c s' =>
      match rstrip s' with
      | EmptyString => if is_space c then EmptyString else String c EmptyString
      | r => String c r
      end
  end.

Definition strip (s : string) : string := rstrip (lstrip s).

(** Digits after the first one: [acc] is the value read so far and
    [after_digit] tells whether the previous character was a digit (an
    underscore must sit between two digits). *)
Fixpoint int_digits (acc : Z) (after_digit : bool) (s : string) : option Z :=
  match s with
  | EmptyString => if after_digit then Some acc else None
  | String c s' =>
      if is_digit c then int_digits (10 * acc + digit_val c) true s'
      else if Ascii.eqb c "_" then
        if after_digit then int_digits acc false s' else None
      else None
  end.

Fixpoint count_digits (s : string) : Z :=
  match s with
  | EmptyString => 0
  | String c s' => (if is_digit c then 1 else 0) + count_digits s'
  end.

Definition too_many_digits (max_str_digits : Z) (s : string) : bool :=
  let digits := count_digits s in
  (640 <? digits) && (0 <? max_str_digits) && (max_str_digits <? digits).

Definition int_unsigned (max_str_digits : Z) (s : string) : option Z :=
  match s with
  | String c _ =>
      if is_digit c then
        if too_many_digits max_str_digits s then None
        else int_digits 0 false s
      else None
  | EmptyString => None
  end.

Definition int_of_str (max_str_digits : Z) (s : string) : option Z :=
  match strip s with
  | String "-" s' => option_map Z.opp (int_unsigned max_str_digits s')
  | String "+" s' => int_unsigned max_str_digits s'
  | s' => int_unsigned max_str_digits s'
  end.

(** *** [int / int] and the resulting [float]

    A finite binary64 number is kept as mantissa and exponent: the pair
    [(m, e)] stands for [m * 2^e], with [|m| <= 2^53].  CPython divides
    two ints exactly and rounds the quotient once, to nearest, ties to
    even; it raises [OverflowError] when the rounded quotient does not
    fit.  The script only ever divides by 3, so the quotient is zero or
    at least 1/3 in magnitude and never subnormal. *)
Definition float : Type := Z * Z.

(** The integer nearest to [p / d], ties to even ([0 <= p], [0 < d]). *)
Definition round_half_even (p d : Z) : Z :=
  let k := p / d in
  let t := p mod d in
  if 2 * t <? d then k
  else if d <? 2 * t then k + 1
  else if Z.even k then k else k + 1.

(** The exponent [n] with [2^n <= x / 3 < 2^(n+1)], for [0 < x]. *)
Definition log2_third (x : Z) : Z :=
  if 3 <=? x then Z.log2 (x / 3) else - Z.log2_up ((x + 2) / x).

(** [a / 3]; [None] is [OverflowError]. *)
Definition truediv3 (a : Z) : option float :=
  if a =? 0 then Some (0, 0)
  else
    let x := Z.abs a in
    let e := log2_third x - 52 in
    let m := if 0 <=? e then round_half_even x (3 * 2 ^ e)
             else round_half_even (x * 2 ^ (- e)) 3 in
    if (0 <=? e) && (2 ^ 1024 <=? m * 2 ^ e) then None
    else Some (Z.sgn a * m, e).

(** [int(f)]: truncation toward zero. *)
Definition int_of_float (f : float) : Z :=
  let (m, e) := f in
  if 0 <=? e then m * 2 ^ e else Z.quot m (2 ^ (- e)).

(** [round(f)]: the nearest integer, ties to even. *)
Definition round (f : float) : Z :=
  let (m, e) := f in
  if 0 <=? e then m * 2 ^ e
  else Z.sgn m * round_half_even (Z.abs m) (2 ^ (- e)).

(** [l[start:stop]] with Python's treatment of negative and oversized
    bounds; [None] is an omitted bound. *)
Definition clamp_index (len i : Z) : Z :=
  if i <? 0 then Z.max 0 (i + len) else Z.min i len.

Definition slice {A : Type} (l : list A) (start stop : option Z) : list A :=
  let len := Z.of_nat (List.length l) in
  let lo := match start with Some i => clamp_index len i | None => 0 end in
  let hi := match stop with Some i => clamp_index len i | None => len end in
  firstn (Z.to_nat (hi - lo)) (skipn (Z.to_nat lo) l).

(** [for i, x in enumerate(l, start)] *)
Fixpoint enumerate {A : Type} (start : Z) (l : list A) : list (Z * A) :=
  match l with
  | [] => []
  | x :: l' => (start, x) :: enumerate (start + 1) l'
  end.

(** *** The code points of a text

    A [string] holds the bytes of a text as the operating system hands
    it over (a file name, a command-line argument).  Python reads them
    as UTF-8 with the surrogateescape handler, CPython's default on
    POSIX: a well-formed sequence of one to four bytes is one code
    point, and any other byte [b] stands alone as the code point
    [0xDC00 + b].  Overlong forms, encoded surrogates and values above
    0x10FFFF are not well formed. *)
Definition continuation (b : N) : bool := ((128 <=? b) && (b <=? 191))%N.

Definition second_of_three (b0 b1 : N) : bool :=
  (((if b0 =? 224 then 160 else 128) <=? b1)
   && (b1 <=? (if b0 =? 237 then 159 else 191)))%N.

Definition second_of_four (b0 b1 : N) : bool :=
  (((if b0 =? 240 then 144 else 128) <=? b1)
   && (b1 <=? (if b0 =? 244 then 143 else 191)))%N.

Fixpoint code_points (s : string) : list N :=
  match s with
  | EmptyString => []
  | String a0 s1 =>
      let b0 := N_of_ascii a0 in
      let escaped := (56320 + b0)%N :: code_points s1 in
      if (b0 <? 128)%N then b0 :: code_points s1
      else if ((194 <=? b0) && (b0 <=? 223))%N then
        match s1 with
        | String a1 s2 =>
            let b1 := N_of_ascii a1 in
            if continuation b1
            then ((b0 - 192) * 64 + (b1 - 128))%N :: code_points s2
            else escaped
        | EmptyString => escaped
        end
      else if ((224 <=? b0) && (b0 <=? 239))%N then
        match s1 with
        | String a1 (String a2 s3) =>
            let b1 := N_of_ascii a1 in
            let b2 := N_of_ascii a2 in
            if second_of_three b0 b1 && continuation b2
            then ((b0 - 224) * 4096 + (b1 - 128) * 64 + (b2 - 128))%N
                 :: code_points s3
            else escaped
        | _ => escaped
        end
      else if ((240 <=? b0) && (b0 <=? 244))%N then
        match s1 with
        | String a1 (String a2 (String a3 s4)) =>
            let b1 := N_of_ascii a1 in
            let b2 := N_of_ascii a2 in
            let b3 := N_of_ascii a3 in
            if second_of_four b0 b1 && continuation b2 && continuation b3
            then ((b0 - 240) * 262144 + (b1 - 128) * 4096
                  + (b2 - 128) * 64 + (b3 - 128))%N
                 :: code_points s4
            else escaped
        | _ => escaped
        end
      else escaped
  end.

(** The way back ([os.fsencode]): the bytes of one code point. *)
Definition byte (n : N) : string := String (ascii_of_N n) EmptyString.

Definition encode_point (cp : N) : string :=
  if (cp <? 128)%N then byte cp
  else if ((56448 <=? cp) && (cp <=? 56575))%N then byte (cp - 56320)
  else if (cp <? 2048)%N then
    byte (192 + cp / 64) ++ byte (128 + cp mod 64)
  else if (cp <? 65536)%N then
    byte (224 + cp / 4096) ++ byte (128 + (cp / 64) mod 64)
    ++ byte (128 + cp mod 64)
  else
    byte (240 + cp / 262144) ++ byte (128 + (cp / 4096) mod 64)
    ++ byte (128 + (cp / 64) mod 64) ++ byte (128 + cp mod 64).

Fixpoint encode_points (l : list N) : string :=
  match l with
  | [] => EmptyString
  | cp :: l' => encode_point cp ++ encode_points l'
  end.

(** The comparison of two [str]: lexicographic on the code points. *)
Fixpoint compare_points (a b : list N) : comparison :=
  match a, b with
  | [], [] => Eq
  | [], _ :: _ => Lt
  | _ :: _, [] => Gt
  | x :: a', y :: b' =>
      match N.compare x y with
      | Eq => compare_points a' b'
      | c => c
      end
  end.

(** [a < b] on [str] *)
Definition str_lt (a b : string) : bool :=
  match compare_points (code_points a) (code_points b) with
  | Lt => true
  | _ => false
  end.

(** [l.sort()] on a list of [str]: only [<] is asked.  Stable
    insertion: an element goes in front of the first one that is not
    smaller. *)
Fixpoint insert_sorted (x : string) (l : list string) : list string :=
  match l with
  | [] => [x]
  | y :: l' => if str_lt y x then y :: insert_sorted x l' else x :: l
  end.

Fixpoint sort (l : list string) : list string :=
  match l with
  | [] => []
  | x :: l' => insert_sorted x (sort l')
  end.

End Py.


(** ** The outside world and what the script does to it *)

(** [os.path.join] on POSIX for two components: an absolute second
    component replaces the first. *)
Fixpoint ends_with_slash (s : string) : bool :=
  match s with
  | EmptyString => false
  | String c EmptyString => Ascii.eqb c "/"
  | String _ s' => ends_with_slash s'
  end.

Definition path_join (a b : string) : string :=
  match b with
  | String "/" _ => b
  | _ => match a with
         | EmptyString => b
         | _ => if ends_with_slash a then a ++ b else a ++ "/" ++ b
         end
  end.

(** What one run can observe.  External programs are deterministic in
    their argument vector; the concatenation process ends after writing
    finitely many lines to its diagnostic stream.  What [str.lower] and
    [int] make of a text with a non-ASCII character depends on the
    Unicode tables of the interpreter: the fields [unicode_lower] and
    [unicode_int] stand for them, and are never consulted on ASCII
    text.  A text is kept as its bytes; the program hands file names to
    the processes it starts as it received them, since encoding is the
    inverse of decoding ([TextFacts.encode_code_points]). *)
Record world : Type := {
  int_max_str_digits : Z;            (* sys.get_int_max_str_digits() *)
  unicode_lower : string -> string;  (* s.lower(), s not ASCII *)
  unicode_int : string -> option Z;  (* int(s), s not ASCII; None: ValueError *)
  ffmpeg_installed : bool;
  ffprobe_installed : bool;
  exit_code : list string -> Z;
  stderr_lines : list string -> list string;
  glob : string -> list string;      (* glob.glob(pattern, recursive=True) *)
  isdir : string -> bool;            (* os.path.isdir *)
  abspath : string -> string;        (* os.path.abspath *)
  getsize : string -> option Z;      (* os.path.getsize; None: no such path *)
  temp_dir : string                  (* tempfile.TemporaryDirectory() *)
}.

(** One constructor per [print] statement, carrying the interpolated
    values; the rendering of the text is not modelled. *)
Inductive msg : Type :=
| Banner | Rule
| FfmpegMissing | InstallHint (line : nat)
| FfmpegFound
| Searching (input_dir : string)
| NoVideoFiles
| Found (n : Z)
| PositionOutOfRange (position n : Z)
| Selected (first last : Z)
| Processing (n : Z)
| CheckingCompatibility
| Checked (i total : Z)
| Incompatible (n : Z)
| ReEncoding (numbered : bool)
| ProcessingClip (idx total : Z)
| FailedClip (src : string)
| PreProcessingComplete (done total : Z)
| NoClips
| Concatenating
| Progress (line : string)
| Success
| OutputSaved (output_file : string)
| OutputSize (bytes : Z)
| ConcatenationError
| ErrorOutput (text : string)
| UnexpectedError
| NoDirectory
| InvalidDirectory (input_dir : string)
| NotFourThree
| InvalidResolution
| AutoName (output : string).

Inductive event : Type :=
| Print (m : msg)
| Run (argv : list string)              (* subprocess.run *)
| Popen (argv : list string)            (* subprocess.Popen *)
| WriteFile (path content : string).    (* open(path, 'w') ... write *)

Inductive exn : Type :=
| CalledProcessError
| FileNotFoundError
| TypeError
| ValueError
| IndexError
| OverflowError
| SystemExit (code : Z).

(** [except Exception] catches everything here but [SystemExit]. *)
Definition is_Exception (e : exn) : bool :=
  match e with
  | SystemExit _ => false
  | _ => true
  end.

Inductive res (A : Type) : Type :=
| Val (a : A)
| Exn (e : exn).
Arguments Val {A} a.
Arguments Exn {A} e.

(** A computation: the events it caused, in order, and how it ended. *)
Definition M (A : Type) : Type := list event * res A.

Definition ret {A} (a : A) : M A := ([], Val a).
Definition raise {A} (e : exn) : M A := ([], Exn e).
Definition emit (ev : event) : M unit := ([ev], Val tt).
Definition print (m : msg) : M unit := emit (Print m).

Definition bind {A B} (m : M A) (f : A -> M B) : M B :=
  match m with
  | (t, Val a) => let (t', r) := f a in ((t ++ t')%list, r)
  | (t, Exn e) => (t, Exn e)
  end.

(** [try: m  except <handled>: h e] *)
Definition try_except {A} (m : M A) (h : exn -> option (M A)) : M A :=
  match m with
  | (t, Exn e) =>
      match h e with
      | Some k => let (t', r) := k in ((t ++ t')%list, r)
      | None => m
      end
  | _ => m
  end.

Declare Scope py_scope.
Delimit Scope py_scope with py.
Notation "x <- m ;; k" := (bind m (fun x => k))
  (at level 100, m at next level, right associativity) : py_scope.
Notation "m ;; k" := (bind m (fun _ => k))
  (at level 100, right associativity) : py_scope.
Local Open Scope py_scope.

Definition trace {A} (m : M A) : list event := fst m.
Definition outcome {A} (m : M A) : res A := snd m.

Definition len {A} (l : list A) : Z := Z.of_nat (List.length l).

Definition is_empty {A} (l : list A) : bool :=
  match l with
  | [] => true
  | _ => false
  end.

(** The external invocations of a trace, in order. *)
Fixpoint invocations (t : list event) : list (list string) :=
  match t with
  | [] => []
  | Run argv :: t' => argv :: invocations t'
  | Popen argv :: t' => argv :: invocations t'
  | _ :: t' => invocations t'
  end.

Fixpoint written (t : list event) : list (string * string) :=
  match t with
  | [] => []
  | WriteFile p c :: t' => (p, c) :: written t'
  | _ :: t' => written t'
  end.

Fixpoint popens (t : list event) : list (list string) :=
  match t with
  | [] => []
  | Popen argv :: t' => argv :: popens t'
  | _ :: t' => popens t'
  end.

Fixpoint printed (t : list event) : list msg :=
  match t with
  | [] => []
  | Print m :: t' => m :: printed t'
  | _ :: t' => printed t'
  end.

(** ** The script *)

Section Script.

Variable w : world.

(** [subprocess.run(argv, check=True)]: a missing program raises before
    any process starts; a non-zero exit status raises afterwards. *)
Definition subprocess_run (installed : bool) (argv : list string) : M unit :=
  if installed then
    emit (Run argv) ;;
    if exit_code w argv =? 0 then ret tt else raise CalledProcessError
  else raise FileNotFoundError.

Definition default_extensions : list string :=
  ["*.mp4"; "*.avi"; "*.mov"; "*.mkv"; "*.flv"; "*.wmv"; "*.m4v"; "*.webm"].

(** [find_video_files], lines 17-29. *)
Definition find_video_files (directory : string)
    (extensions : option (list string)) : list string :=
  let extensions :=
    match extensions with
    | None => default_extensions
    | Some l => l
    end in
  let video_files :=
    flat_map (fun ext => glob w (path_join (path_join directory "**") ext))
             extensions in
  Py.sort video_files.

Definition version_probe : list string := ["ffmpeg"; "-version"].

(** [check_ffmpeg], lines 31-40. *)
Definition check_ffmpeg : M bool :=
  try_except
    (subprocess_run (ffmpeg_installed w) version_probe ;; ret true)
    (fun e => match e with
              | CalledProcessError | FileNotFoundError => Some (ret false)
              | _ => None
              end).

Definition dquote : string := String (ascii_of_nat 34) EmptyString.

(** The text [s.replace("'", ...)] puts in place of a quote: quote,
    double quote, quote, double quote, quote. *)
Definition escaped_quote : string := "'" ++ dquote ++ "'" ++ dquote ++ "'".

Definition file_line (video_file : string) : string :=
  let abs_path := abspath w video_file in
  let escaped_path := Py.replace_char "'" escaped_quote abs_path in
  "file '" ++ escaped_path ++ "'" ++ String (ascii_of_nat 10) EmptyString.

(** [create_file_list], lines 42-53. *)
Definition create_file_list (video_files : list string) (temp_dir : string)
    : M string :=
  let file_list_path := path_join temp_dir "video_list.txt" in
  emit (WriteFile file_list_path
          (String.concat "" (map file_line video_files))) ;;
  ret file_list_path.

Definition ffprobe_cmd (video_file : string) : list string :=
  ["ffprobe"; "-v"; "quiet"; "-print_format"; "json";
   "-show_format"; "-show_streams"; video_file].

(** [get_video_info], lines 55-65: only the exit status is handled. *)
Definition get_video_info (video_file : string) : M bool :=
  let cmd := ffprobe_cmd video_file in
  try_except
    (subprocess_run (ffprobe_installed w) cmd ;; ret true)
    (fun e => match e with
              | CalledProcessError => Some (ret false)
              | _ => None
              end).

(** Lines 106-125 of [stitch_videos]: [None] is the early
    [return False]; otherwise [start_index] and the new [video_files]. *)
Definition select_videos (video_files : list string)
    (position number : option Z) : M (option (Z * list string)) :=
  let start_index := 0 in
  r <- match position with
       | Some p =>
           if (p <? 1) || (len video_files <? p) then
             print (PositionOutOfRange p (len video_files)) ;; ret None
           else ret (Some (p - 1))
       | None => ret (Some start_index)
       end ;;
  match r with
  | None => ret None
  | Some start_index =>
      match position, number with
      | None, None => ret (Some (start_index, video_files))
      | _, _ =>
          let video_files :=
            match number with
            | None => Py.slice video_files (Some start_index) None
            | Some n =>
                let end_index := Z.min (start_index + n) (len video_files) in
                Py.slice video_files (Some start_index) (Some end_index)
            end in
          (* the message adds an int to [position] *)
          match position with
          | None => raise TypeError
          | Some p => print (Selected p (p + len video_files - 1))
          end ;;
          print (Processing (len video_files)) ;;
          ret (Some (start_index, video_files))
      end
  end.

(** Lines 133-143: the advisory sample of the first ten files. *)
Fixpoint sample_files (total : Z) (files : list (Z * string))
    (incompatible_files : list string) : M (list string) :=
  match files with
  | [] => ret incompatible_files
  | (i, video_file) :: rest =>
      ok <- get_video_info video_file ;;
      let incompatible_files :=
        if ok then incompatible_files
        else (incompatible_files ++ [video_file])%list in
      (if i mod 100 =? 0 then print (Checked (i + 1) (Z.min 10 total))
       else ret tt) ;;
      sample_files total rest incompatible_files
  end.

Definition check_sample (video_files : list string) : M unit :=
  print CheckingCompatibility ;;
  incompatible_files <-
    sample_files (len video_files)
      (Py.enumerate 0 (Py.slice video_files None (Some 10))) [] ;;
  if is_empty incompatible_files then ret tt
  else print (Incompatible (len incompatible_files)).

(** Line 161. *)
Definition display_number (position number : option Z)
    (start_index idx : Z) : Z :=
  match position, number with
  | None, None => idx
  | _, _ => start_index + idx
  end.

(** Lines 164-176. *)
Definition vf_filter (numbered : bool) (target_w target_h display : Z)
    : string :=
  let vf_parts :=
    ["scale=-1:" ++ Py.str_of_int target_h;
     "crop='min(iw," ++ Py.str_of_int target_w ++ ")':'min(ih,"
       ++ Py.str_of_int target_h ++ ")'";
     "pad=" ++ Py.str_of_int target_w ++ ":" ++ Py.str_of_int target_h
       ++ ":(ow-iw)/2:(oh-ih)/2"] in
  let vf_parts :=
    if numbered then
      List.app vf_parts
        ["drawtext=text=" ++ Py.str_of_int display
           ++ ":fontcolor=black:fontsize=48:box=1:boxcolor=white@1:boxborderw=20:x=20:y=20"]
    else vf_parts in
  Py.join "," vf_parts.

Definition clip_dst (temp_dir : string) (idx : Z) : string :=
  path_join temp_dir ("processed_" ++ Py.fmt_05d idx ++ ".mp4").

(** Lines 178-184. *)
Definition encode_cmd (src vf dst : string) : list string :=
  ["ffmpeg"; "-loglevel"; "error"; "-y"; "-i"; src;
   "-vf"; vf;
   "-c:v"; "libx264"; "-pix_fmt"; "yuv420p";
   "-c:a"; "aac"; "-preset"; "medium";
   dst].

Section Clips.

Variables (numbered : bool) (target_w target_h : Z).
Variables (position number : option Z) (start_index total : Z).

Definition clip_cmd (idx : Z) (src : string) : list string :=
  encode_cmd src
    (vf_filter numbered target_w target_h
       (display_number position number start_index idx))
    (clip_dst (temp_dir w) idx).

(** Whether the encoder exits with status 0 on a clip, and the events
    one turn of the loop below causes. *)
Definition clip_ok (clip : Z * string) : bool :=
  exit_code w (clip_cmd (fst clip) (snd clip)) =? 0.

Definition clip_events (clip : Z * string) : list event :=
  Print (ProcessingClip (fst clip) total)
  :: Run (clip_cmd (fst clip) (snd clip))
  :: (if clip_ok clip then [] else [Print (FailedClip (snd clip))]).

(** The loop of lines 157-194 over [enumerate(video_files, start=1)]. *)
Fixpoint encode_clips (clips : list (Z * string))
    (processed_files : list string) : M (list string) :=
  match clips with
  | [] => ret processed_files
  | (idx, src) :: rest =>
      print (ProcessingClip idx total) ;;
      ok <- try_except
              (subprocess_run (ffmpeg_installed w) (clip_cmd idx src) ;;
               ret true)
              (fun e => match e with
                        | CalledProcessError =>
                            Some (print (FailedClip src) ;; ret false)
                        | _ => None
                        end) ;;
      encode_clips rest
        (if ok then (processed_files ++ [clip_dst (temp_dir w) idx])%list
         else processed_files)
  end.

End Clips.

Definition concat_cmd (file_list_path output_file : string) : list string :=
  ["ffmpeg"; "-f"; "concat"; "-safe"; "0"; "-i"; file_list_path;
   "-c"; "copy"; "-y"; output_file].

(** The read loop of lines 224-229: every line with a frame marker is
    echoed. *)
Fixpoint echo_progress (lines : list string) : M unit :=
  match lines with
  | [] => ret tt
  | output_line :: rest =>
      (if Py.contains "frame=" output_line then print (Progress output_line)
       else ret tt) ;;
      echo_progress rest
  end.

(** Lines 206-255.  [process.stderr.read()] comes after the loop has
    reached the end of the stream, so it yields the empty string. *)
Definition concatenate (file_list_path output_file : string) : M bool :=
  let cmd := concat_cmd file_list_path output_file in
  print Concatenating ;;
  try_except
    ((if ffmpeg_installed w then emit (Popen cmd)
      else raise FileNotFoundError) ;;
     echo_progress (stderr_lines w cmd) ;;
     if exit_code w cmd =? 0 then
       print Success ;;
       print (OutputSaved output_file) ;;
       match getsize w output_file with
       | Some bytes => print (OutputSize bytes)
       | None => ret tt
       end ;;
       ret true
     else
       print ConcatenationError ;;
       print (ErrorOutput "") ;;
       ret false)
    (fun e => if is_Exception e then Some (print UnexpectedError ;; ret false)
              else None).

(** Lines 128-130. *)
Definition target_of (target_resolution : option (Z * Z)) : Z * Z :=
  match target_resolution with
  | None => (1280, 960)
  | Some r => r
  end.

(** Lines 127-255 of [stitch_videos]: what happens to the selected
    files. *)
Definition process_clips (output_file : string)
    (check_compatibility numbered : bool)
    (target_resolution : option (Z * Z))
    (position number : option Z)
    (start_index : Z) (video_files : list string) : M bool :=
  let target_resolution := target_of target_resolution in
  let target_w := fst target_resolution in
  let target_h := snd target_resolution in
  (if check_compatibility then check_sample video_files else ret tt) ;;
  let temp_dir := temp_dir w in
  print (ReEncoding numbered) ;;
  processed_files <-
    encode_clips numbered target_w target_h position number
      start_index (len video_files)
      (Py.enumerate 1 video_files) [] ;;
  print (PreProcessingComplete (len processed_files) (len video_files)) ;;
  if is_empty processed_files then
    print NoClips ;; ret false
  else
    file_list_path <- create_file_list processed_files temp_dir ;;
    concatenate file_list_path output_file.

(** [stitch_videos], lines 67-255. *)
Definition stitch_videos (input_dir output_file : string)
    (check_compatibility numbered : bool)
    (target_resolution : option (Z * Z))
    (position number : option Z) : M bool :=
  print Banner ;;
  print Rule ;;
  found <- check_ffmpeg ;;
  if negb found then
    print FfmpegMissing ;;
    print (InstallHint 0) ;; print (InstallHint 1) ;;
    print (InstallHint 2) ;; print (InstallHint 3) ;;
    ret false
  else
    print FfmpegFound ;;
    print (Searching input_dir) ;;
    let video_files := find_video_files input_dir None in
    if is_empty video_files then
      print NoVideoFiles ;; ret false
    else
      print (Found (len video_files)) ;;
      selection <- select_videos video_files position number ;;
      match selection with
      | None => ret false
      | Some (start_index, video_files) =>
          process_clips output_file check_compatibility numbered
            target_resolution position number start_index video_files
      end.

(** The parsed command line ([argparse.Namespace]). *)
Record args : Type := {
  args_input_dir : option string;
  args_target_dir : option string;
  args_output : string;
  args_no_check : bool;
  args_resolution : string;
  args_numbered : bool;
  args_position : option Z;
  args_number : option Z
}.

(** [l[i]] for a non-negative literal index. *)
Definition item (l : list string) (i : nat) : M string :=
  match nth_error l i with
  | Some x => ret x
  | None => raise IndexError
  end.

(** [s.lower()] *)
Definition str_lower (s : string) : string :=
  if Py.is_ascii s then Py.lower s else unicode_lower w s.

(** [int(s)] for a [str] *)
Definition int (s : string) : M Z :=
  let value :=
    if Py.is_ascii s then Py.int_of_str (int_max_str_digits w) s
    else unicode_int w s in
  match value with
  | Some n => ret n
  | None => raise ValueError
  end.

(** Lines 308-309 of [main]. *)
Definition parse_resolution (resolution : string) : M (Z * Z) :=
  let res_parts := Py.split "x" (str_lower resolution) in
  p0 <- item res_parts 0 ;;
  res_w <- int p0 ;;
  p1 <- item res_parts 1 ;;
  res_h <- int p1 ;;
  ret (res_w, res_h).

(** Lines 310-313 of [main]: [res_w = int(res_h * 4 / 3)]. *)
Definition four_thirds (res_w res_h : Z) : M (Z * Z) :=
  if negb (res_w * 3 =? res_h * 4) then
    print NotFourThree ;;
    match Py.truediv3 (res_h * 4) with
    | Some f => ret (Py.int_of_float f, res_h)
    | None => raise OverflowError
    end
  else ret (res_w, res_h).

(** Lines 307-316 of [main]. *)
Definition resolve_resolution (resolution : string) : M (Z * Z) :=
  try_except
    (parsed <- parse_resolution resolution ;;
     four_thirds (fst parsed) (snd parsed))
    (fun e => if is_Exception e
              then Some (print InvalidResolution ;; raise (SystemExit 1))
              else None).

Definition is_some {A} (o : option A) : bool :=
  match o with
  | Some _ => true
  | None => false
  end.

(** Lines 319-329 of [main]. *)
Definition output_name (output : string) (position number : option Z)
    : M string :=
  if String.eqb output "stitched_video.mp4"
     && (is_some position || is_some number) then
    let filename_parts := ["stitched-video"] in
    let filename_parts :=
      match position with
      | Some p => List.app filename_parts ["position-" ++ Py.str_of_int p]
      | None => filename_parts
      end in
    let filename_parts :=
      match number with
      | Some n => List.app filename_parts ["number-" ++ Py.str_of_int n]
      | None => filename_parts
      end in
    let output := Py.join "_" filename_parts ++ ".mp4" in
    print (AutoName output) ;;
    ret output
  else ret output.

(** [main], lines 257-343, after [parse_args]. *)
Definition main (a : args) : M unit :=
  let input_dir :=
    match args_target_dir a with
    | Some (String c d) => Some (String c d)
    | _ => args_input_dir a
    end in
  match input_dir with
  | None => print NoDirectory ;; raise (SystemExit 1)
  | Some input_dir =>
      if negb (isdir w input_dir) then
        print (InvalidDirectory input_dir) ;; raise (SystemExit 1)
      else
        resolution <- resolve_resolution (args_resolution a) ;;
        output <- output_name (args_output a) (args_position a)
                    (args_number a) ;;
        success <- stitch_videos input_dir output
                     (negb (args_no_check a)) (args_numbered a)
                     (Some resolution) (args_position a) (args_number a) ;;
        if negb success then raise (SystemExit 1) else ret tt
  end.

End Script.

(** [check_ffmpeg] answers [True]: the program is there and its version
    probe exits with status 0. *)
Definition ffmpeg_available (w : world) : Prop :=
  ffmpeg_installed w = true /\ exit_code w version_probe = 0.

(** The exit status of the process: an uncaught exception other than
    [SystemExit] ends the interpreter with status 1. *)
Definition exit_status (r : res unit) : Z :=
  match r with
  | Val _ => 0
  | Exn (SystemExit code) => code
  | Exn _ => 1
  end.

(** ** A concrete world for examples

    A flat listing stands for the tree under the directory asked for:
    a pattern [dir/**/*.ext] selects the listed paths that end in
    [.ext].  ffmpeg and ffprobe are installed; a command fails when it
    mentions a path listed as broken.  The digit limit is CPython's
    default; the examples use ASCII text only, on which the two Unicode
    fields are not consulted. *)
Module Fixture.

Fixpoint ends_with (suffix s : string) : bool :=
  String.eqb suffix s
  || match s with
     | EmptyString => false
     | String _ s' => ends_with suffix s'
     end.

(** The extension of a pattern [dir/**/*.ext], dot included. *)
Fixpoint pattern_suffix (pattern : string) : string :=
  match pattern with
  | EmptyString => EmptyString
  | String "*" (String "." rest) =>
      if Py.contains "*." rest then pattern_suffix rest else String "." rest
  | String _ rest => pattern_suffix rest
  end.

Definition listing_glob (files : list string) (pattern : string)
    : list string :=
  filter (ends_with (pattern_suffix pattern)) files.

Definition mentions (broken : list string) (argv : list string) : bool :=
  existsb (fun a => existsb (String.eqb a) broken) argv.

Definition make (files broken : list string) : world := {|
  int_max_str_digits := 4300;
  unicode_lower := fun s => s;
  unicode_int := fun _ => None;
  ffmpeg_installed := true;
  ffprobe_installed := true;
  exit_code := fun argv => if mentions broken argv then 1 else 0;
  stderr_lines := fun _ => [];
  glob := listing_glob files;
  isdir := fun _ => true;
  abspath := fun p => p;
  getsize := fun _ => Some 1024;
  temp_dir := "/tmp/tmpx"
|}.

End Fixture.

(** ** Vocabulary of the statements *)

(** The order of [str]: lexicographic on the code points; [a] does not
    come after [b]. *)
Definition str_le (a b : string) : Prop :=
  Py.compare_points (Py.code_points a) (Py.code_points b) <> Gt.

(** A trace that starts no process and writes no file. *)
Definition quiet (t : list event) : Prop :=
  invocations t = [] /\ written t = [] /\ popens t = [].

(** What precedes discovery when ffmpeg answers. *)
Definition preamble (input_dir : string) : list event :=
  [Print Banner; Print Rule; Run version_probe; Print FfmpegFound;
   Print (Searching input_dir)].

(** The patterns [find_video_files] hands to [glob]. *)
Definition patterns (directory : string) : list string :=
  map (fun ext => path_join (path_join directory "**") ext) default_extensions.

(** The scratch files the encoder produced, as the loop collects them. *)
Definition processed_of (w : world) (numbered : bool) (target : Z * Z)
    (position number : option Z) (start_index : Z)
    (video_files : list string) : list string :=
  map (fun c => clip_dst (temp_dir w) (fst c))
    (filter (clip_ok w numbered (fst target) (snd target) position number
               start_index)
       (Py.enumerate 1 video_files)).

(** The manifest [create_file_list] writes: its path and its text. *)
Definition manifest_of (w : world) (processed_files : list string)
    : string * string :=
  (path_join (temp_dir w) "video_list.txt",
   String.concat "" (map (file_line w) processed_files)).

(** The overlay number as the specification words it: the position in
    the discovered set for a given [position], the index otherwise. *)
Definition effective_number (position : option Z) (i : Z) : Z :=
  match position with
  | Some p => p + i - 1
  | None => i
  end.

(** The resolution property with [round] and an exact 4:3 ratio, as
    the specification states it. *)
Definition rounded_resolution_claim (w : world) (resolution : string)
    : Prop :=
  forall res_w res_h,
    outcome (parse_resolution w resolution) = Val (res_w, res_h) ->
    res_w * 3 <> res_h * 4 ->
    exists f,
      Py.truediv3 (res_h * 4) = Some f
      /\ outcome (resolve_resolution w resolution) = Val (Py.round f, res_h)
      /\ Py.round f * 3 = res_h * 4.

(** The no-match property with no subprocess at all, as the
    specification states it. *)
Definition silent_no_match_claim (w : world) (input_dir : string) : Prop :=
  Forall (fun pattern => glob w pattern = []) (patterns input_dir) ->
  forall output_file check_compatibility numbered target position number,
    let run := stitch_videos w input_dir output_file check_compatibility
                 numbered target position number in
    find_video_files w input_dir None = []
    /\ outcome run = Val false
    /\ In (Print NoVideoFiles) (trace run)
    /\ invocations (trace run) = [].

(** Worlds for the examples. *)
Definition five_clips : world :=
  Fixture.make
    ["/v/a.mp4"; "/v/b.mp4"; "/v/c.mov"; "/v/d.mp4"; "/v/e.mkv";
     "/v/notes.txt"]
    ["/v/c.mov"].

Definition all_broken : world :=
  Fixture.make ["/v/a.mp4"; "/v/b.mp4"] ["/v/a.mp4"; "/v/b.mp4"].

Definition no_videos : world :=
  Fixture.make ["/v/notes.txt"; "/v/cover.jpg"] [].

Definition numbered_names : world :=
  Fixture.make ["/v/clip2.mp4"; "/v/clip10.mp4"; "/v/clip1.mp4"] [].

(** ** Vocabulary of the further statements *)

(** Two computations that end alike and leave the same files and the
    same concatenation behind. *)
Definition same_effects {A} (m1 m2 : M A) : Prop :=
  outcome m1 = outcome m2
  /\ written (trace m1) = written (trace m2)
  /\ popens (trace m1) = popens (trace m2).

(** The files of the sample whose inspection exits non-zero. *)
Definition unreadable (w : world) (video_files : list string) : list string :=
  filter (fun f => negb (exit_code w (ffprobe_cmd f) =? 0))
    (firstn 10 video_files).

(** The directory [main] settles on: a non-empty [--target] wins. *)
Definition chosen_dir (a : args) : option string :=
  match args_target_dir a with
  | Some (String c d) => Some (String c d)
  | _ => args_input_dir a
  end.

(** More worlds for the examples. *)
Definition without_ffmpeg (w : world) : world := {|
  int_max_str_digits := int_max_str_digits w;
  unicode_lower := unicode_lower w;
  unicode_int := unicode_int w;
  ffmpeg_installed := false;
  ffprobe_installed := ffprobe_installed w;
  exit_code := exit_code w;
  stderr_lines := stderr_lines w;
  glob := glob w;
  isdir := isdir w;
  abspath := abspath w;
  getsize := getsize w;
  temp_dir := temp_dir w
|}.

Definition without_ffprobe (w : world) : world := {|
  int_max_str_digits := int_max_str_digits w;
  unicode_lower := unicode_lower w;
  unicode_int := unicode_int w;
  ffmpeg_installed := ffmpeg_installed w;
  ffprobe_installed := false;
  exit_code := exit_code w;
  stderr_lines := stderr_lines w;
  glob := glob w;
  isdir := isdir w;
  abspath := abspath w;
  getsize := getsize w;
  temp_dir := temp_dir w
|}.

Definition without_directories (w : world) : world := {|
  int_max_str_digits := int_max_str_digits w;
  unicode_lower := unicode_lower w;
  unicode_int := unicode_int w;
  ffmpeg_installed := ffmpeg_installed w;
  ffprobe_installed := ffprobe_installed w;
  exit_code := exit_code w;
  stderr_lines := stderr_lines w;
  glob := glob w;
  isdir := fun _ => false;
  abspath := abspath w;
  getsize := getsize w;
  temp_dir := temp_dir w
|}.

(** The listing of [five_clips] as another file system would
    enumerate it. *)
Definition five_clips_shuffled : world :=
  Fixture.make
    ["/v/e.mkv"; "/v/notes.txt"; "/v/d.mp4"; "/v/a.mp4"; "/v/c.mov";
     "/v/b.mp4"]
    ["/v/c.mov"].

Definition plain_args : args := {|
  args_input_dir := Some "/v";
  args_target_dir := None;
  args_output := "stitched_video.mp4";
  args_no_check := false;
  args_resolution := "1280x960";
  args_numbered := false;
  args_position := None;
  args_number := None
|}.

Definition with_resolution (a : args) (resolution : string) : args := {|
  args_input_dir := args_input_dir a;
  args_target_dir := args_target_dir a;
  args_output := args_output a;
  args_no_check := args_no_check a;
  args_resolution := resolution;
  args_numbered := args_numbered a;
  args_position := args_position a;
  args_number := args_number a
|}.

(** ** Facts about the Python values *)

Module PyFacts.

(** With a divisor of 3 a quotient never falls on a tie. *)
Lemma round_half_even_third (p : Z) :
  0 <= p ->
  Py.round_half_even p 3 = if p mod 3 =? 2 then p / 3 + 1 else p / 3.
Proof.
  intros Hp. unfold Py.round_half_even.
  pose proof (Z.mod_pos_bound p 3 ltac:(lia)) as Hm.
  destruct (p mod 3 =? 2) eqn:E.
  - apply Z.eqb_eq in E. rewrite E. reflexivity.
  - apply Z.eqb_neq in E.
    destruct (2 * (p mod 3) <? 3) eqn:E1; [reflexivity|].
    apply Z.ltb_ge in E1. lia.
Qed.

(** Scaling by [s >= 2] before rounding keeps the integer part. *)
Lemma scaled_third_floor (x s : Z) :
  0 <= x -> 2 <= s ->
  Py.round_half_even (x * s) 3 / s = x / 3.
Proof.
  intros Hx Hs.
  rewrite round_half_even_third by nia.
  pose proof (Z.div_mod x 3 ltac:(lia)) as Dx.
  pose proof (Z.mod_pos_bound x 3 ltac:(lia)) as Bx.
  pose proof (Z.div_mod (x * s) 3 ltac:(lia)) as Dp.
  pose proof (Z.mod_pos_bound (x * s) 3 ltac:(lia)) as Bp.
  set (q := x / 3) in *. set (r := x mod 3) in *.
  set (k := (x * s) / 3) in *. set (t := (x * s) mod 3) in *.
  assert (Hk : 3 * k + t = 3 * (q * s) + r * s) by nia.
  destruct (t =? 2) eqn:Et.
  - apply Z.eqb_eq in Et.
    symmetry. apply Z.div_unique with (r := k + 1 - s * q).
    + left. assert (r = 0 \/ r = 1 \/ r = 2) as [R | [R | R]] by lia;
        rewrite R in Hk; nia.
    + ring.
  - apply Z.eqb_neq in Et.
    symmetry. apply Z.div_unique with (r := k - s * q).
    + left. assert (r = 0 \/ r = 1 \/ r = 2) as [R | [R | R]] by lia;
        rewrite R in Hk; nia.
    + ring.
Qed.

Lemma log2_third_small (x : Z) :
  0 < x < 2 ^ 53 -> Py.log2_third x - 52 <= -1.
Proof.
  intros [Hx Hb]. unfold Py.log2_third.
  destruct (3 <=? x) eqn:E.
  - apply Z.leb_le in E.
    assert (0 < x / 3) by (apply Z.div_str_pos; lia).
    assert (x / 3 < 2 ^ 52).
    { apply Z.div_lt_upper_bound; [lia|].
      change (2 ^ 53) with (2 * 2 ^ 52) in Hb. lia. }
    assert (Z.log2 (x / 3) < 52) by (apply Z.log2_lt_pow2; assumption).
    lia.
  - pose proof (Z.log2_up_nonneg ((x + 2) / x)). lia.
Qed.

(** In the range where the quotient keeps a fractional bit,
    [int(a / 3)] is the exact quotient truncated toward zero. *)
Lemma truediv3_exact (a : Z) :
  Z.abs a < 2 ^ 53 ->
  exists f, Py.truediv3 a = Some f /\ Py.int_of_float f = Z.quot a 3.
Proof.
  intros Ha. unfold Py.truediv3.
  destruct (a =? 0) eqn:E0.
  - apply Z.eqb_eq in E0. subst a. exists (0, 0). split; reflexivity.
  - apply Z.eqb_neq in E0.
    assert (Hx : 0 < Z.abs a < 2 ^ 53) by lia.
    pose proof (log2_third_small _ Hx) as He.
    set (e := Py.log2_third (Z.abs a) - 52) in *.
    assert (E1 : (0 <=? e) = false) by (apply Z.leb_gt; lia).
    rewrite E1. cbn [andb].
    eexists. split; [reflexivity|].
    unfold Py.int_of_float. rewrite E1.
    assert (Hs : 2 <= 2 ^ (- e)).
    { change 2 with (2 ^ 1) at 1. apply Z.pow_le_mono_r; lia. }
    set (s := 2 ^ (- e)) in *.
    pose proof (scaled_third_floor (Z.abs a) s ltac:(lia) Hs) as Hq.
    set (m := Py.round_half_even (Z.abs a * s) 3) in *.
    assert (Hm : 0 <= m).
    { unfold m. rewrite round_half_even_third by nia.
      assert (0 <= Z.abs a * s / 3) by (apply Z.div_pos; nia).
      destruct (_ =? 2); lia. }
    destruct (Z.lt_total a 0) as [Hn | [Hz | Hp]]; [| lia |].
    + rewrite (Z.sgn_neg a Hn).
      replace (-1 * m) with (- m) by ring.
      rewrite Z.quot_opp_l by lia.
      rewrite Z.quot_div_nonneg by lia.
      rewrite Hq. rewrite (Z.abs_neq a) by lia.
      rewrite <- Z.quot_div_nonneg by lia.
      rewrite Z.quot_opp_l by lia. lia.
    + rewrite (Z.sgn_pos a Hp). rewrite Z.mul_1_l.
      rewrite Z.quot_div_nonneg by lia.
      rewrite Hq. rewrite (Z.abs_eq a) by lia.
      symmetry. apply Z.quot_div_nonneg; lia.
Qed.

(** [int] at the edges of what it accepts: the separators 28 to 31 are
    not white space for an ASCII text, and a literal of 4301 digits is
    beyond the default limit, which 0 switches off. *)
Example int_refuses_file_separator :
  Py.int_of_str 4300 (String (ascii_of_nat 28) "100") = None
  /\ Py.int_of_str 4300 (String (ascii_of_nat 9) "100 ") = Some 100.
Proof. split; reflexivity. Qed.

Example int_digit_limit :
  let ones (n : nat) := String.concat "" (repeat "1" n) in
  Py.int_of_str 4300 (ones 4301%nat) = None
  /\ Py.int_of_str 4300 (ones 4300%nat) = Some ((10 ^ 4300 - 1) / 9)
  /\ Py.int_of_str 0 (ones 4301%nat) = Some ((10 ^ 4301 - 1) / 9).
Proof. vm_compute. repeat split. Qed.

End PyFacts.

(** *** Bytes and code points *)

Module TextFacts.

Lemma byte_of_ascii (a : ascii) :
  Py.byte (N_of_ascii a) = String a EmptyString.
Proof. unfold Py.byte. rewrite ascii_N_embedding. reflexivity. Qed.

Lemma div_mod_64 (q r : N) :
  (r < 64 -> (q * 64 + r) / 64 = q /\ (q * 64 + r) mod 64 = r)%N.
Proof.
  intros Hr. split; symmetry.
  - apply (N.div_unique _ 64 q r); lia.
  - apply (N.mod_unique _ 64 q r); lia.
Qed.

Lemma encode_one (b : N) : (b < 128)%N -> Py.encode_point b = Py.byte b.
Proof.
  intros H. unfold Py.encode_point.
  apply N.ltb_lt in H. rewrite H. reflexivity.
Qed.

Lemma encode_escaped (b : N) :
  (128 <= b < 256)%N -> Py.encode_point (56320 + b) = Py.byte b.
Proof.
  intros H. unfold Py.encode_point.
  replace (56320 + b <? 128)%N with false by (symmetry; apply N.ltb_ge; lia).
  replace ((56448 <=? 56320 + b) && (56320 + b <=? 56575))%N with true
    by (symmetry; apply andb_true_iff; split; apply N.leb_le; lia).
  f_equal. lia.
Qed.

Lemma encode_two (b0 b1 : N) :
  (194 <= b0 <= 223)%N -> Py.continuation b1 = true ->
  Py.encode_point ((b0 - 192) * 64 + (b1 - 128))
  = Py.byte b0 ++ Py.byte b1.
Proof.
  intros H0 H1. unfold Py.continuation in H1.
  apply andb_true_iff in H1. destruct H1 as [L1 U1].
  apply N.leb_le in L1, U1.
  set (cp := ((b0 - 192) * 64 + (b1 - 128))%N).
  destruct (div_mod_64 (b0 - 192) (b1 - 128)) as [Hd Hm]; [lia|].
  fold cp in Hd, Hm.
  assert (Hcp : (128 <= cp < 2048)%N) by (unfold cp; lia).
  unfold Py.encode_point.
  replace (cp <? 128)%N with false by (symmetry; apply N.ltb_ge; lia).
  replace ((56448 <=? cp) && (cp <=? 56575))%N with false
    by (symmetry; apply andb_false_iff; left; apply N.leb_gt; lia).
  replace (cp <? 2048)%N with true by (symmetry; apply N.ltb_lt; lia).
  rewrite Hd, Hm.
  replace (192 + (b0 - 192))%N with b0 by lia.
  replace (128 + (b1 - 128))%N with b1 by lia. reflexivity.
Qed.

Lemma encode_three (b0 b1 b2 : N) :
  (224 <= b0 <= 239)%N -> Py.second_of_three b0 b1 = true ->
  Py.continuation b2 = true ->
  Py.encode_point ((b0 - 224) * 4096 + (b1 - 128) * 64 + (b2 - 128))
  = Py.byte b0 ++ Py.byte b1 ++ Py.byte b2.
Proof.
  intros H0 H1 H2. unfold Py.continuation in H2. unfold Py.second_of_three in H1.
  apply andb_true_iff in H1, H2. destruct H1 as [L1 U1], H2 as [L2 U2].
  apply N.leb_le in L1, U1, L2, U2.
  assert (B1 : (128 <= b1 <= 191)%N).
  { destruct (b0 =? 224)%N, (b0 =? 237)%N; lia. }
  set (hi := ((b0 - 224) * 64 + (b1 - 128))%N).
  set (cp := ((b0 - 224) * 4096 + (b1 - 128) * 64 + (b2 - 128))%N).
  assert (Ecp : cp = (hi * 64 + (b2 - 128))%N) by (unfold cp, hi; lia).
  destruct (div_mod_64 hi (b2 - 128)) as [Hd Hm]; [lia|].
  destruct (div_mod_64 (b0 - 224) (b1 - 128)) as [Hd' Hm']; [lia|].
  fold hi in Hd', Hm'. rewrite <- Ecp in Hd, Hm.
  assert (Hq : (cp / 4096 = b0 - 224)%N).
  { change 4096%N with (64 * 64)%N. rewrite <- N.Div0.div_div.
    rewrite Hd. exact Hd'. }
  assert (Hlow : (2048 <= cp < 65536)%N).
  { unfold cp. destruct (N.eqb_spec b0 224); lia. }
  assert (Hsur : (cp < 56448 \/ 56575 < cp)%N).
  { unfold cp. destruct (N.eqb_spec b0 237); lia. }
  unfold Py.encode_point.
  replace (cp <? 128)%N with false by (symmetry; apply N.ltb_ge; lia).
  replace ((56448 <=? cp) && (cp <=? 56575))%N with false
    by (symmetry; apply andb_false_iff; destruct Hsur;
        [left | right]; apply N.leb_gt; lia).
  replace (cp <? 2048)%N with false by (symmetry; apply N.ltb_ge; lia).
  replace (cp <? 65536)%N with true by (symmetry; apply N.ltb_lt; lia).
  rewrite Hq, Hd, Hm, Hm'.
  replace (224 + (b0 - 224))%N with b0 by lia.
  replace (128 + (b1 - 128))%N with b1 by lia.
  replace (128 + (b2 - 128))%N with b2 by lia. reflexivity.
Qed.

Lemma encode_four (b0 b1 b2 b3 : N) :
  (240 <= b0 <= 244)%N -> Py.second_of_four b0 b1 = true ->
  Py.continuation b2 = true -> Py.continuation b3 = true ->
  Py.encode_point ((b0 - 240) * 262144 + (b1 - 128) * 4096
                   + (b2 - 128) * 64 + (b3 - 128))
  = Py.byte b0 ++ Py.byte b1 ++ Py.byte b2 ++ Py.byte b3.
Proof.
  intros H0 H1 H2 H3. unfold Py.continuation in H2, H3.
  unfold Py.second_of_four in H1.
  apply andb_true_iff in H1, H2, H3.
  destruct H1 as [L1 U1], H2 as [L2 U2], H3 as [L3 U3].
  apply N.leb_le in L1, U1, L2, U2, L3, U3.
  assert (B1 : (128 <= b1 <= 191)%N).
  { destruct (b0 =? 240)%N, (b0 =? 244)%N; lia. }
  set (top := ((b0 - 240) * 64 + (b1 - 128))%N).
  set (hi := (top * 64 + (b2 - 128))%N).
  set (cp := ((b0 - 240) * 262144 + (b1 - 128) * 4096
              + (b2 - 128) * 64 + (b3 - 128))%N).
  assert (Ecp : cp = (hi * 64 + (b3 - 128))%N) by (unfold cp, hi, top; lia).
  destruct (div_mod_64 hi (b3 - 128)) as [Hd Hm]; [lia|].
  destruct (div_mod_64 top (b2 - 128)) as [Hd' Hm']; [lia|].
  destruct (div_mod_64 (b0 - 240) (b1 - 128)) as [Hd2 Hm2]; [lia|].
  fold hi in Hd', Hm'. fold top in Hd2, Hm2. rewrite <- Ecp in Hd, Hm.
  assert (Hq : (cp / 4096 = top)%N).
  { change 4096%N with (64 * 64)%N. rewrite <- N.Div0.div_div.
    rewrite Hd. exact Hd'. }
  assert (Hq' : (cp / 262144 = b0 - 240)%N).
  { change 262144%N with (4096 * 64)%N. rewrite <- N.Div0.div_div.
    rewrite Hq. exact Hd2. }
  assert (Hlow : (65536 <= cp)%N).
  { unfold cp. destruct (N.eqb_spec b0 240); lia. }
  unfold Py.encode_point.
  replace (cp <? 128)%N with false by (symmetry; apply N.ltb_ge; lia).
  replace ((56448 <=? cp) && (cp <=? 56575))%N with false
    by (symmetry; apply andb_false_iff; right; apply N.leb_gt; lia).
  replace (cp <? 2048)%N with false by (symmetry; apply N.ltb_ge; lia).
  replace (cp <? 65536)%N with false by (symmetry; apply N.ltb_ge; lia).
  rewrite Hq', Hq, Hd, Hm, Hm', Hm2.
  replace (240 + (b0 - 240))%N with b0 by lia.
  replace (128 + (b1 - 128))%N with b1 by lia.
  replace (128 + (b2 - 128))%N with b2 by lia.
  replace (128 + (b3 - 128))%N with b3 by lia. reflexivity.
Qed.

(** The decoder reads one code point at a time, and the bytes it has
    read are the encoding of that code point. *)
Lemma code_points_step (a0 : ascii) (s1 : string) :
  exists cp rest,
    Py.code_points (String a0 s1) = cp :: Py.code_points rest
    /\ String a0 s1 = Py.encode_point cp ++ rest
    /\ (String.length rest <= String.length s1)%nat.
Proof.
  pose proof (N_ascii_bounded a0) as Hb.
  assert (Hesc : (128 <= N_of_ascii a0)%N ->
            exists cp rest,
              (56320 + N_of_ascii a0)%N :: Py.code_points s1
              = cp :: Py.code_points rest
              /\ String a0 s1 = Py.encode_point cp ++ rest
              /\ (String.length rest <= String.length s1)%nat).
  { intros H. exists (56320 + N_of_ascii a0)%N, s1. split; [reflexivity|].
    rewrite encode_escaped by lia. rewrite byte_of_ascii.
    split; [reflexivity | lia]. }
  cbn [Py.code_points].
  destruct (N.ltb_spec (N_of_ascii a0) 128) as [H1 | H1].
  { exists (N_of_ascii a0), s1. split; [reflexivity|].
    rewrite encode_one by exact H1. rewrite byte_of_ascii.
    split; [reflexivity | lia]. }
  destruct ((194 <=? N_of_ascii a0) && (N_of_ascii a0 <=? 223))%N eqn:H2.
  { apply andb_true_iff in H2. destruct H2 as [L U].
    apply N.leb_le in L, U.
    destruct s1 as [| a1 s2]; [apply Hesc; exact H1|].
    destruct (Py.continuation (N_of_ascii a1)) eqn:C1;
      [|apply Hesc; exact H1].
    eexists _, s2. split; [reflexivity|].
    rewrite encode_two by (try exact C1; lia). rewrite !byte_of_ascii.
    split; [reflexivity | cbn; lia]. }
  destruct ((224 <=? N_of_ascii a0) && (N_of_ascii a0 <=? 239))%N eqn:H3.
  { apply andb_true_iff in H3. destruct H3 as [L U].
    apply N.leb_le in L, U.
    destruct s1 as [| a1 [| a2 s3]]; try (apply Hesc; exact H1).
    destruct (Py.second_of_three (N_of_ascii a0) (N_of_ascii a1)
              && Py.continuation (N_of_ascii a2)) eqn:C;
      [|apply Hesc; exact H1].
    apply andb_true_iff in C. destruct C as [C1 C2].
    eexists _, s3. split; [reflexivity|].
    rewrite encode_three by (try assumption; lia). rewrite !byte_of_ascii.
    split; [reflexivity | cbn; lia]. }
  destruct ((240 <=? N_of_ascii a0) && (N_of_ascii a0 <=? 244))%N eqn:H4.
  { apply andb_true_iff in H4. destruct H4 as [L U].
    apply N.leb_le in L, U.
    destruct s1 as [| a1 [| a2 [| a3 s4]]]; try (apply Hesc; exact H1).
    destruct (Py.second_of_four (N_of_ascii a0) (N_of_ascii a1)
              && Py.continuation (N_of_ascii a2)
              && Py.continuation (N_of_ascii a3)) eqn:C;
      [|apply Hesc; exact H1].
    apply andb_true_iff in C. destruct C as [C C3].
    apply andb_true_iff in C. destruct C as [C1 C2].
    eexists _, s4. split; [reflexivity|].
    rewrite encode_four by (try assumption; lia). rewrite !byte_of_ascii.
    split; [reflexivity | cbn; lia]. }
  apply Hesc. exact H1.
Qed.

(** Encoding gives back the bytes that were decoded
    ([os.fsencode(os.fsdecode(b)) == b]). *)
Lemma encode_code_points (s : string) :
  Py.encode_points (Py.code_points s) = s.
Proof.
  assert (H : forall n s, (String.length s <= n)%nat ->
            Py.encode_points (Py.code_points s) = s).
  { induction n as [| n IH]; intros [| a0 s1] Hlen;
      try reflexivity; cbn [String.length] in Hlen; [lia|].
    destruct (code_points_step a0 s1) as (cp & rest & E1 & E2 & E3).
    rewrite E1. cbn [Py.encode_points]. rewrite IH by lia.
    symmetry. exact E2. }
  apply (H (String.length s)). lia.
Qed.

Lemma code_points_injective (a b : string) :
  Py.code_points a = Py.code_points b -> a = b.
Proof.
  intros H. rewrite <- (encode_code_points a), <- (encode_code_points b).
  rewrite H. reflexivity.
Qed.

End TextFacts.

(** *** The order of [str] and [list.sort] *)

Module SortFacts.

Lemma compare_points_antisym (a b : list N) :
  Py.compare_points a b = CompOpp (Py.compare_points b a).
Proof.
  revert b. induction a as [| x a IH]; intros [| y b]; cbn;
    try reflexivity.
  rewrite (N.compare_antisym y x).
  destruct (N.compare y x); cbn; [apply IH | reflexivity | reflexivity].
Qed.

Lemma compare_points_eq (a b : list N) :
  Py.compare_points a b = Eq -> a = b.
Proof.
  revert b. induction a as [| x a IH]; intros [| y b]; cbn; try easy.
  destruct (N.compare_spec x y) as [-> | H | H]; try discriminate.
  intros E. f_equal. apply IH. exact E.
Qed.

Lemma compare_points_le_trans (a b c : list N) :
  Py.compare_points a b <> Gt -> Py.compare_points b c <> Gt ->
  Py.compare_points a c <> Gt.
Proof.
  revert b c. induction a as [| x a IH]; intros [| y b] [| z c]; cbn;
    try easy.
  destruct (N.compare_spec x y) as [Exy | Lxy | Gxy];
    destruct (N.compare_spec y z) as [Eyz | Lyz | Gyz];
    destruct (N.compare_spec x z) as [Exz | Lxz | Gxz];
    intros H1 H2; try easy; try lia.
  eapply IH; eassumption.
Qed.

Lemma str_le_trans (a b c : string) : str_le a b -> str_le b c -> str_le a c.
Proof. unfold str_le. apply compare_points_le_trans. Qed.

Lemma str_le_antisym (a b : string) : str_le a b -> str_le b a -> a = b.
Proof.
  unfold str_le. intros Hab Hba.
  apply TextFacts.code_points_injective, compare_points_eq.
  rewrite (compare_points_antisym (Py.code_points b) (Py.code_points a))
    in Hba.
  destruct (Py.compare_points (Py.code_points a) (Py.code_points b)); easy.
Qed.

Lemma str_lt_le (a b : string) : Py.str_lt a b = true -> str_le a b.
Proof.
  unfold Py.str_lt, str_le.
  destruct (Py.compare_points _ _); easy.
Qed.

Lemma not_str_lt_le (a b : string) : Py.str_lt a b = false -> str_le b a.
Proof.
  unfold Py.str_lt, str_le.
  rewrite (compare_points_antisym (Py.code_points b) (Py.code_points a)).
  destruct (Py.compare_points (Py.code_points a) (Py.code_points b));
    cbn; easy.
Qed.

Lemma insert_sorted_perm (x : string) (l : list string) :
  Permutation (Py.insert_sorted x l) (x :: l).
Proof.
  induction l as [| y l IH]; cbn; [reflexivity|].
  destruct (Py.str_lt y x); [|reflexivity].
  rewrite IH. apply perm_swap.
Qed.

Lemma sort_perm (l : list string) : Permutation (Py.sort l) l.
Proof.
  induction l as [| x l IH]; cbn; [constructor|].
  rewrite insert_sorted_perm. constructor. exact IH.
Qed.

Lemma insert_sorted_sorted (x : string) (l : list string) :
  StronglySorted str_le l -> StronglySorted str_le (Py.insert_sorted x l).
Proof.
  induction 1 as [| y l Hs IH Hall]; cbn.
  - repeat constructor.
  - destruct (Py.str_lt y x) eqn:E.
    + constructor; [exact IH|].
      eapply Permutation_Forall.
      * symmetry. apply insert_sorted_perm.
      * constructor; [apply str_lt_le; exact E | exact Hall].
    + apply not_str_lt_le in E. constructor.
      * constructor; assumption.
      * constructor; [exact E|].
        eapply Forall_impl; [|exact Hall].
        intros z Hz. eapply str_le_trans; eassumption.
Qed.

Lemma sort_sorted (l : list string) : StronglySorted str_le (Py.sort l).
Proof.
  induction l as [| x l IH]; cbn; [constructor|].
  apply insert_sorted_sorted. exact IH.
Qed.

End SortFacts.

(** ** Facts about computations and traces *)

Section TraceFacts.

Lemma bind_val {A B} (t : list event) (a : A) (f : A -> M B) :
  bind (t, Val a) f = ((t ++ trace (f a))%list, outcome (f a)).
Proof. unfold bind. destruct (f a); reflexivity. Qed.

Lemma bind_exn {A B} (t : list event) (e : exn) (f : A -> M B) :
  bind (t, Exn e) f = (t, Exn e).
Proof. reflexivity. Qed.

Lemma bind_print {B} (m : msg) (f : unit -> M B) :
  bind (print m) f = (Print m :: trace (f tt), outcome (f tt)).
Proof. unfold print, emit. rewrite bind_val. reflexivity. Qed.

Lemma pair_trace_outcome {A} (m : M A) : m = (trace m, outcome m).
Proof. destruct m; reflexivity. Qed.

Lemma invocations_app (a b : list event) :
  invocations (a ++ b) = (invocations a ++ invocations b)%list.
Proof.
  induction a as [| [] a IH]; cbn; rewrite ?IH; reflexivity.
Qed.

Lemma written_app (a b : list event) :
  written (a ++ b) = (written a ++ written b)%list.
Proof.
  induction a as [| [] a IH]; cbn; rewrite ?IH; reflexivity.
Qed.

Lemma popens_app (a b : list event) :
  popens (a ++ b) = (popens a ++ popens b)%list.
Proof.
  induction a as [| [] a IH]; cbn; rewrite ?IH; reflexivity.
Qed.

Lemma enumerate_length {A} (l : list A) (start : Z) :
  List.length (Py.enumerate start l) = List.length l.
Proof.
  revert start. induction l as [| x l IH]; intros; cbn; [|rewrite IH];
    reflexivity.
Qed.

Lemma enumerate_snd {A} (l : list A) (start : Z) :
  map snd (Py.enumerate start l) = l.
Proof.
  revert start. induction l as [| x l IH]; intros; cbn; [|rewrite IH];
    reflexivity.
Qed.

Lemma enumerate_lower {A} (l : list A) (start : Z) :
  Forall (fun c => start <= fst c) (Py.enumerate start l).
Proof.
  revert start. induction l as [| x l IH]; intros; cbn; constructor.
  - cbn. lia.
  - eapply Forall_impl; [|apply IH]. cbn. intros; lia.
Qed.

Lemma enumerate_increasing {A} (l : list A) (start : Z) :
  StronglySorted Z.lt (map fst (Py.enumerate start l)).
Proof.
  revert start. induction l as [| x l IH]; intros; cbn; constructor.
  - apply IH.
  - apply Forall_map. eapply Forall_impl; [|apply enumerate_lower].
    cbn. intros; lia.
Qed.

Lemma enumerate_nth {A} (l : list A) (start : Z) (k : nat) (x : A) :
  nth_error l k = Some x <->
  nth_error (Py.enumerate start l) k = Some (start + Z.of_nat k, x).
Proof.
  revert start k. induction l as [| y l IH]; intros start [| k]; cbn;
    try easy.
  - rewrite Z.add_0_r. split; intros H; inversion H; reflexivity.
  - rewrite (IH (start + 1) k).
    replace (start + 1 + Z.of_nat k) with (start + Z.pos (Pos.of_succ_nat k))
      by lia.
    reflexivity.
Qed.

Lemma filter_increasing {A} (f : A -> Z) (p : A -> bool) (l : list A) :
  StronglySorted Z.lt (map f l) ->
  StronglySorted Z.lt (map f (filter p l)).
Proof.
  induction l as [| x l IH]; cbn; intros H; [constructor|].
  apply StronglySorted_inv in H. destruct H as [Hs Hall].
  destruct (p x); cbn; [|apply IH; exact Hs].
  constructor; [apply IH; exact Hs|].
  rewrite Forall_forall in Hall. apply Forall_forall.
  intros z Hz. apply Hall.
  apply in_map_iff in Hz. destruct Hz as [y [Ey Hy]].
  apply filter_In in Hy. apply in_map_iff. exists y. tauto.
Qed.

Lemma filter_split_length {A} (p : A -> bool) (l : list A) :
  (List.length (filter p l)
   + List.length (filter (fun x => negb (p x)) l))%nat = List.length l.
Proof.
  induction l as [| x l IH]; cbn; [reflexivity|].
  destruct (p x); cbn; lia.
Qed.

Lemma is_empty_false {A} (l : list A) :
  (0 < List.length l)%nat -> is_empty l = false.
Proof. destruct l; cbn; [lia | reflexivity]. Qed.

Lemma is_empty_map_filter {A B} (f : A -> B) (p : A -> bool) (l : list A) :
  is_empty (map f (filter p l)) = negb (existsb p l).
Proof.
  induction l as [| x l IH]; cbn; [reflexivity|].
  destruct (p x); cbn; [reflexivity | exact IH].
Qed.

(** *** Slices *)

Lemma slice_nth {A} (l : list A) (lo : Z) (stop : option Z) (k : nat) (x : A) :
  0 <= lo ->
  nth_error (Py.slice l (Some lo) stop) k = Some x ->
  nth_error l (Z.to_nat lo + k) = Some x.
Proof.
  intros Hlo. unfold Py.slice, Py.clamp_index.
  destruct (lo <? 0) eqn:E; [apply Z.ltb_lt in E; lia|].
  set (n := Z.to_nat _). set (lo' := Z.min lo _).
  intros H.
  assert (Hk : nth_error (skipn (Z.to_nat lo') l) k = Some x).
  { revert H. generalize (skipn (Z.to_nat lo') l). clear.
    revert k. induction n as [| n IH]; intros [| k] [| y l']; cbn; try easy.
    apply IH. }
  rewrite nth_error_skipn in Hk.
  assert (Hlt : (Z.to_nat lo' + k < List.length l)%nat).
  { apply nth_error_Some. congruence. }
  replace (Z.to_nat lo) with (Z.to_nat lo'); [exact Hk|].
  unfold lo' in *. lia.
Qed.

Lemma slice_empty {A} (l : list A) (i : Z) :
  Py.slice l (Some i) (Some i) = [].
Proof. unfold Py.slice. rewrite Z.sub_diag. reflexivity. Qed.

End TraceFacts.

(** ** The stages of [stitch_videos] *)

Section StageFacts.

Variable w : world.

Lemma quiet_nil : quiet [].
Proof. repeat split. Qed.

Lemma quiet_print (m : msg) (t : list event) : quiet t -> quiet (Print m :: t).
Proof. intros H. exact H. Qed.

Lemma quiet_app (a b : list event) : quiet a -> quiet b -> quiet (a ++ b).
Proof.
  intros (A1 & A2 & A3) (B1 & B2 & B3). unfold quiet.
  rewrite invocations_app, written_app, popens_app, A1, A2, A3, B1, B2, B3.
  repeat split.
Qed.

Lemma check_ffmpeg_available :
  ffmpeg_available w -> check_ffmpeg w = ([Run version_probe], Val true).
Proof.
  intros [Hi He]. unfold check_ffmpeg, subprocess_run.
  rewrite Hi, He. reflexivity.
Qed.

Lemma check_ffmpeg_missing :
  ffmpeg_installed w = false -> check_ffmpeg w = ([], Val false).
Proof.
  intros Hi. unfold check_ffmpeg, subprocess_run. rewrite Hi. reflexivity.
Qed.

Lemma get_video_info_run (video_file : string) :
  ffprobe_installed w = true ->
  get_video_info w video_file =
    ([Run (ffprobe_cmd video_file)],
     Val (exit_code w (ffprobe_cmd video_file) =? 0)).
Proof.
  intros Hi. unfold get_video_info, subprocess_run. rewrite Hi.
  cbn. destruct (exit_code w (ffprobe_cmd video_file) =? 0); reflexivity.
Qed.

Lemma sample_files_run (total : Z) (files : list (Z * string)) :
  ffprobe_installed w = true ->
  forall acc, exists t acc',
    sample_files w total files acc = (t, Val acc')
    /\ invocations t = map (fun c => ffprobe_cmd (snd c)) files
    /\ written t = [] /\ popens t = [].
Proof.
  intros Hi. induction files as [| [i f] files IH]; intros acc.
  - exists [], acc. repeat split.
  - cbn [sample_files]. rewrite (get_video_info_run f Hi), bind_val.
    set (acc1 := if exit_code w (ffprobe_cmd f) =? 0 then acc else _).
    destruct (IH acc1) as (t & acc' & Ht & Hinv & Hwr & Hpo).
    destruct (i mod 100 =? 0); [rewrite bind_print | unfold ret at 1; rewrite bind_val];
      rewrite Ht; cbn; eexists; eexists; (split; [reflexivity|]);
      cbn; rewrite Hinv, Hwr, Hpo; repeat split.
Qed.

Lemma sample_step_run (check_compatibility : bool) (files : list string) :
  (check_compatibility = true -> ffprobe_installed w = true) ->
  exists t,
    (if check_compatibility then check_sample w files else ret tt)
      = (t, Val tt)
    /\ invocations t =
         (if check_compatibility
          then map ffprobe_cmd (Py.slice files None (Some 10)) else [])
    /\ written t = [] /\ popens t = [].
Proof.
  intros Hi. destruct check_compatibility.
  - specialize (Hi eq_refl). unfold check_sample. rewrite bind_print.
    destruct (sample_files_run (len files)
                (Py.enumerate 0 (Py.slice files None (Some 10))) Hi [])
      as (t & acc' & Ht & Hinv & Hwr & Hpo).
    rewrite Ht, bind_val.
    rewrite <- (map_map snd ffprobe_cmd), enumerate_snd in Hinv.
    destruct (is_empty acc'); cbn; eexists; (split; [reflexivity|]);
      cbn; rewrite ?invocations_app, ?written_app, ?popens_app,
             Hinv, Hwr, Hpo; cbn; rewrite ?app_nil_r; repeat split.
  - exists []. repeat split.
Qed.

Section ClipFacts.

Variables (numbered : bool) (target_w target_h : Z).
Variables (position number : option Z) (start_index total : Z).

Let events := clip_events w numbered target_w target_h position number
                start_index total.
Let ok := clip_ok w numbered target_w target_h position number start_index.
Let cmd := clip_cmd w numbered target_w target_h position number start_index.

Lemma encode_clips_run (clips : list (Z * string)) :
  ffmpeg_installed w = true ->
  forall acc,
    encode_clips w numbered target_w target_h position number start_index
      total clips acc
    = (flat_map events clips,
       Val (acc ++ map (fun c => clip_dst (temp_dir w) (fst c))
                     (filter ok clips))%list).
Proof.
  intros Hi. induction clips as [| [idx src] clips IH]; intros acc.
  - cbn. rewrite app_nil_r. reflexivity.
  - cbn [encode_clips flat_map filter]. rewrite bind_print.
    unfold subprocess_run. rewrite Hi.
    unfold events at 1, clip_events, ok at 1, clip_ok. cbn [fst snd].
    fold cmd.
    destruct (exit_code w (cmd idx src) =? 0) eqn:E;
      unfold print, emit, ret, raise; cbn [bind try_except app];
      rewrite IH; cbn [trace outcome fst snd app map];
      rewrite <- ?app_assoc; reflexivity.
Qed.

Lemma clip_events_invocations (clips : list (Z * string)) :
  invocations (flat_map events clips)
  = map (fun c => cmd (fst c) (snd c)) clips.
Proof.
  induction clips as [| c clips IH]; cbn; [reflexivity|].
  unfold clip_ok. destruct (_ =? 0); cbn; rewrite IH; reflexivity.
Qed.

Lemma clip_events_written (clips : list (Z * string)) :
  written (flat_map events clips) = [].
Proof.
  induction clips as [| c clips IH]; cbn; [reflexivity|].
  unfold clip_ok. destruct (_ =? 0); cbn; rewrite IH; reflexivity.
Qed.

Lemma clip_events_popens (clips : list (Z * string)) :
  popens (flat_map events clips) = [].
Proof.
  induction clips as [| c clips IH]; cbn; [reflexivity|].
  unfold clip_ok. destruct (_ =? 0); cbn; rewrite IH; reflexivity.
Qed.

Lemma clip_events_failed (clips : list (Z * string)) (c : Z * string) :
  In c clips -> ok c = false ->
  In (Print (FailedClip (snd c))) (flat_map events clips).
Proof.
  intros Hin Hok. apply in_flat_map. exists c. split; [exact Hin|].
  unfold events, clip_events. fold ok. rewrite Hok. cbn. auto.
Qed.

End ClipFacts.

Lemma echo_progress_quiet (lines : list string) :
  exists t, echo_progress lines = (t, Val tt) /\ quiet t.
Proof.
  induction lines as [| l lines (t & Ht & Hq)].
  - exists []. split; [reflexivity | apply quiet_nil].
  - cbn [echo_progress].
    destruct (Py.contains "frame=" l);
      [rewrite bind_print | unfold ret at 1; rewrite bind_val];
      rewrite Ht; cbn; eexists; (split; [reflexivity|]); exact Hq.
Qed.

Lemma concatenate_run (file_list_path output_file : string) :
  ffmpeg_installed w = true ->
  exists t,
    concatenate w file_list_path output_file
    = (Print Concatenating
       :: Popen (concat_cmd file_list_path output_file) :: t,
       Val (exit_code w (concat_cmd file_list_path output_file) =? 0))
    /\ quiet t.
Proof.
  intros Hi. unfold concatenate. rewrite bind_print, Hi.
  destruct (echo_progress_quiet
              (stderr_lines w (concat_cmd file_list_path output_file)))
    as (t & Ht & Hq).
  unfold emit. rewrite bind_val, Ht, bind_val.
  destruct (exit_code w (concat_cmd file_list_path output_file) =? 0).
  - destruct (getsize w output_file); cbn; eexists;
      (split; [reflexivity|]); rewrite ?app_nil_r;
      (apply quiet_app; [exact Hq | repeat split]).
  - cbn. eexists. split; [reflexivity|]. rewrite ?app_nil_r.
    apply quiet_app; [exact Hq | repeat split].
Qed.

Lemma select_videos_quiet (video_files : list string)
    (position number : option Z) :
  quiet (trace (select_videos video_files position number)).
Proof.
  unfold select_videos.
  destruct position as [p |], number as [n |]; cbn;
    try destruct (_ || _); cbn; repeat split.
Qed.

End StageFacts.

(** ** The pipeline *)

Section PipelineFacts.

Variable w : world.
Variables (input_dir output_file : string).
Variables (check_compatibility numbered : bool).
Variable target_resolution : option (Z * Z).
Variables (position number : option Z).

Let target := target_of target_resolution.
Let run := stitch_videos w input_dir output_file check_compatibility
             numbered target_resolution position number.

Lemma stitch_videos_no_ffmpeg :
  ffmpeg_installed w = false ->
  run = ([Print Banner; Print Rule; Print FfmpegMissing; Print (InstallHint 0);
          Print (InstallHint 1); Print (InstallHint 2); Print (InstallHint 3)],
         Val false).
Proof.
  intros Hi. unfold run, stitch_videos.
  rewrite (check_ffmpeg_missing w Hi). reflexivity.
Qed.

Lemma stitch_videos_no_files :
  ffmpeg_available w ->
  find_video_files w input_dir None = [] ->
  run = ((preamble input_dir ++ [Print NoVideoFiles])%list, Val false).
Proof.
  intros Ha Hf. unfold run, stitch_videos.
  rewrite (check_ffmpeg_available w Ha), Hf. reflexivity.
Qed.

Lemma stitch_videos_selects :
  ffmpeg_available w ->
  find_video_files w input_dir None <> [] ->
  let video_files := find_video_files w input_dir None in
  let rest :=
    bind (select_videos video_files position number)
      (fun selection =>
         match selection with
         | None => ret false
         | Some (start_index, video_files) =>
             process_clips w output_file check_compatibility numbered
               target_resolution position number start_index video_files
         end) in
  run = ((preamble input_dir ++ Print (Found (len video_files)) :: trace rest)%list,
         outcome rest).
Proof.
  intros Ha Hf video_files rest. subst rest video_files.
  unfold run, stitch_videos. rewrite (check_ffmpeg_available w Ha).
  destruct (find_video_files w input_dir None) as [| f files];
    [congruence|].
  destruct (select_videos (f :: files) position number)
    as [t [[[start_index selected] |] | e]]; try reflexivity.
  cbn [bind print emit ret negb is_empty app trace outcome fst snd].
  destruct (process_clips _ _ _ _ _ _ _ _ _) as [t' r]. reflexivity.
Qed.

Lemma process_clips_run (start_index : Z) (video_files : list string) :
  ffmpeg_installed w = true ->
  (check_compatibility = true -> ffprobe_installed w = true) ->
  let clips := Py.enumerate 1 video_files in
  let processed_files :=
    processed_of w numbered target position number start_index video_files in
  exists t_sample t_tail result,
    process_clips w output_file check_compatibility numbered
      target_resolution position number start_index video_files
    = ((t_sample
        ++ Print (ReEncoding numbered)
        :: flat_map (clip_events w numbered (fst target) (snd target)
                       position number start_index (len video_files)) clips
        ++ Print (PreProcessingComplete (len processed_files)
                    (len video_files))
        :: t_tail)%list,
       Val result)
    /\ invocations t_sample =
         (if check_compatibility
          then map ffprobe_cmd (Py.slice video_files None (Some 10)) else [])
    /\ written t_sample = [] /\ popens t_sample = []
    /\ ((processed_files = [] /\ t_tail = [Print NoClips] /\ result = false)
        \/ (processed_files <> []
            /\ exists t_end,
                 let file_list_path := fst (manifest_of w processed_files) in
                 let cmd := concat_cmd file_list_path output_file in
                 t_tail = WriteFile file_list_path
                            (snd (manifest_of w processed_files))
                          :: Print Concatenating :: Popen cmd :: t_end
                 /\ result = (exit_code w cmd =? 0)
                 /\ quiet t_end)).
Proof.
  intros Hi Hp. cbv zeta. unfold processed_of, manifest_of, process_clips.
  destruct (sample_step_run w check_compatibility video_files Hp)
    as (t_sample & Hs & Hinv & Hwr & Hpo).
  rewrite Hs. cbv zeta. fold target.
  rewrite (encode_clips_run w numbered (fst target) (snd target) position
             number start_index (len video_files) _ Hi).
  cbn [app fst snd].
  set (clips := Py.enumerate 1 video_files).
  set (processed_files := map _ (filter _ clips)).
  exists t_sample.
  destruct processed_files as [| p ps] eqn:E.
  - exists [Print NoClips], false.
    split; [reflexivity|]. repeat split; try assumption.
    left. repeat split.
  - rewrite <- E. cbn [is_empty].
    destruct (concatenate_run w (path_join (temp_dir w) "video_list.txt")
                output_file Hi) as (t_end & Hc & Hq).
    unfold create_file_list, print, emit, ret.
    cbn [bind app]. rewrite Hc. cbn [is_empty].
    rewrite E. cbn [is_empty]. rewrite <- E.
    eexists _, _. split; [reflexivity|].
    repeat split; try assumption.
    right. split; [rewrite E; discriminate|].
    exists t_end. repeat split; apply Hq.
Qed.

(** Once selection has succeeded, everything the run does outside. *)
Lemma stitch_videos_effects (t_sel : list event) (start_index : Z)
    (selected : list string) :
  ffmpeg_available w ->
  find_video_files w input_dir None <> [] ->
  select_videos (find_video_files w input_dir None) position number
    = (t_sel, Val (Some (start_index, selected))) ->
  (check_compatibility = true -> ffprobe_installed w = true) ->
  let clips := Py.enumerate 1 selected in
  let processed_files :=
    processed_of w numbered target position number start_index selected in
  let cmd := concat_cmd (fst (manifest_of w processed_files)) output_file in
  invocations (trace run)
  = (version_probe
     :: (if check_compatibility
         then map ffprobe_cmd (Py.slice selected None (Some 10)) else [])
     ++ map (fun c => clip_cmd w numbered (fst target) (snd target) position
                        number start_index (fst c) (snd c)) clips
     ++ (if is_empty processed_files then [] else [cmd]))%list
  /\ written (trace run)
     = (if is_empty processed_files then []
        else [manifest_of w processed_files])
  /\ popens (trace run) = (if is_empty processed_files then [] else [cmd])
  /\ outcome run
     = Val (if is_empty processed_files then false
            else exit_code w cmd =? 0)
  /\ (forall c, In c clips ->
        clip_ok w numbered (fst target) (snd target) position number
          start_index c = false ->
        In (Print (FailedClip (snd c))) (trace run))
  /\ (is_empty processed_files = true -> In (Print NoClips) (trace run)).
Proof.
  intros Ha Hf Hsel Hp clips processed_files cmd.
  pose proof (stitch_videos_selects Ha Hf) as Hrun. cbv zeta in Hrun.
  rewrite Hsel, bind_val in Hrun. cbn [trace outcome fst snd] in Hrun.
  destruct (process_clips_run start_index selected (proj1 Ha) Hp)
    as (t_sample & t_tail & result & Hproc & Hinv & Hwr & Hpo & Htail).
  cbv zeta in Hproc, Htail. fold clips processed_files in Hproc, Htail.
  rewrite Hproc in Hrun. cbn [trace outcome fst snd] in Hrun.
  destruct (select_videos_quiet (find_video_files w input_dir None)
              position number) as (Sinv & Swr & Spo).
  rewrite Hsel in Sinv, Swr, Spo. cbn [trace fst] in Sinv, Swr, Spo.
  rewrite Hrun. cbn [trace outcome fst snd].
  unfold preamble.
  rewrite !invocations_app, !written_app, !popens_app.
  cbn [invocations written popens app].
  rewrite !invocations_app, !written_app, !popens_app.
  cbn [invocations written popens app].
  rewrite !invocations_app, !written_app, !popens_app.
  rewrite clip_events_invocations, clip_events_written, clip_events_popens.
  rewrite Sinv, Swr, Spo, Hinv, Hwr, Hpo.
  cbn [invocations written popens app].
  assert (Hfail : forall c t_tail, In c clips ->
            clip_ok w numbered (fst target) (snd target) position number
              start_index c = false ->
            In (Print (FailedClip (snd c)))
               (Print Banner :: Print Rule :: Run version_probe
                :: Print FfmpegFound :: Print (Searching input_dir)
                :: Print (Found (len (find_video_files w input_dir None)))
                :: t_sel ++ t_sample ++ Print (ReEncoding numbered)
                :: flat_map (clip_events w numbered (fst target) (snd target)
                               position number start_index (len selected))
                     clips
                ++ t_tail)%list).
  { intros c t Hc Hok. do 6 right. apply in_or_app. right.
    apply in_or_app. right. right. apply in_or_app. left.
    apply clip_events_failed; assumption. }
  destruct Htail as [(Hnil & Ht & Hr) | (Hne & t_end & Ht & Hr & Hq)].
  - rewrite Hnil, Ht, Hr in *. cbn [is_empty invocations written popens].
    repeat split; try assumption.
    + intros c Hc Hok. apply Hfail; assumption.
    + intros _. do 6 right. apply in_or_app. right. apply in_or_app. right.
      right. apply in_or_app. right. right. left. reflexivity.
  - destruct Hq as (Q1 & Q2 & Q3).
    destruct processed_files as [| p ps] eqn:E; [congruence|].
    rewrite Ht, Hr. cbn [is_empty invocations written popens].
    rewrite Q1, Q2, Q3. repeat split; try assumption; try discriminate.
    intros c Hc Hok. apply Hfail; assumption.
Qed.

End PipelineFacts.

(** ** Resolution, discovery and the output name *)

Lemma parse_resolution_trace (w : world) (resolution : string) :
  trace (parse_resolution w resolution) = [].
Proof.
  unfold parse_resolution, item, int.
  set (res_parts := Py.split _ _).
  destruct (nth_error res_parts 0) as [p0 |];
    cbn [bind ret raise]; [|reflexivity].
  destruct (if Py.is_ascii p0 then _ else _); cbn [bind ret raise];
    [|reflexivity].
  destruct (nth_error res_parts 1) as [p1 |];
    cbn [bind ret raise]; [|reflexivity].
  destruct (if Py.is_ascii p1 then _ else _); reflexivity.
Qed.

Lemma four_thirds_truncates (res_w res_h : Z) :
  res_w * 3 <> res_h * 4 ->
  Z.abs res_h < 2 ^ 51 ->
  four_thirds res_w res_h
  = ([Print NotFourThree], Val (Z.quot (res_h * 4) 3, res_h)).
Proof.
  intros Hne Hb. unfold four_thirds.
  apply Z.eqb_neq in Hne. rewrite Hne. cbn [negb].
  destruct (PyFacts.truediv3_exact (res_h * 4)) as (f & Hf & Hint).
  { change (2 ^ 53) with (4 * 2 ^ 51). lia. }
  rewrite Hf, Hint. reflexivity.
Qed.

Lemma truncated_width_exact (res_h : Z) :
  Z.quot (res_h * 4) 3 * 3 = res_h * 4 <-> res_h mod 3 = 0.
Proof.
  pose proof (Z.quot_rem' (res_h * 4) 3) as Hq.
  pose proof (Z.rem_mod_eq_0 (res_h * 4) 3 ltac:(lia)) as Hr.
  pose proof (Z.div_mod res_h 3 ltac:(lia)) as Hd.
  pose proof (Z.mod_pos_bound res_h 3 ltac:(lia)) as Hm.
  pose proof (Z.div_mod (res_h * 4) 3 ltac:(lia)) as Hd4.
  pose proof (Z.mod_pos_bound (res_h * 4) 3 ltac:(lia)) as Hm4.
  split; intros H.
  - assert (Z.rem (res_h * 4) 3 = 0) by lia.
    assert ((res_h * 4) mod 3 = 0) by (apply Hr; assumption).
    lia.
  - assert ((res_h * 4) mod 3 = 0) by lia.
    assert (Z.rem (res_h * 4) 3 = 0) by (apply Hr; assumption).
    lia.
Qed.

(** C1, as the specification states it, fails on "5x2": the parsed
    pair (5, 2) is not 4:3, [round(2 * 4 / 3)] is 3, but the resolved
    width is [int(2 * 4 / 3)] = 2, and (2, 2) is not 4:3 either. *)
Lemma resolution_5x2_not_rounded :
  ~ rounded_resolution_claim five_clips "5x2".
Proof.
  intros H. destruct (H 5 2) as (f & Hf & Hres & Hexact).
  - reflexivity.
  - discriminate.
  - vm_compute in Hf. inversion Hf; subst f.
    vm_compute in Hexact. discriminate.
Qed.

(** C1, amended: for a resolution string parsed as a pair that is not
    4:3 and whose height is below 2^51 in magnitude, the resolved width
    is [height * 4 / 3] truncated toward zero, the height is kept, and
    the resolved pair is exactly 4:3 if and only if the height is a
    multiple of 3. *)
Theorem resolution_width_truncated (w : world) (resolution : string)
    (res_w res_h : Z) :
  outcome (parse_resolution w resolution) = Val (res_w, res_h) ->
  res_w * 3 <> res_h * 4 ->
  Z.abs res_h < 2 ^ 51 ->
  outcome (resolve_resolution w resolution)
    = Val (Z.quot (res_h * 4) 3, res_h)
  /\ (Z.quot (res_h * 4) 3 * 3 = res_h * 4 <-> res_h mod 3 = 0).
Proof.
  intros Hparse Hne Hb. split; [|apply truncated_width_exact].
  unfold resolve_resolution.
  pose proof (parse_resolution_trace w resolution) as Ht.
  destruct (parse_resolution w resolution) as [t r].
  cbn [trace outcome fst snd] in Ht, Hparse. subst t r.
  rewrite bind_val. cbn [fst snd app].
  rewrite (four_thirds_truncates res_w res_h Hne Hb). reflexivity.
Qed.

(** Beyond the bound the float quotient is no longer exact: a height
    of 3 * (2^53 + 1) is a multiple of 3, yet the resolved width is 2^55
    and the pair is not 4:3. *)
Example large_height_not_exact :
  let res_h := 3 * (2 ^ 53 + 1) in
  outcome (four_thirds 1 res_h) = Val (2 ^ 55, res_h)
  /\ 2 ^ 55 * 3 <> res_h * 4
  /\ res_h mod 3 = 0.
Proof. vm_compute. repeat split; discriminate. Qed.

Lemma resolution_width_truncated_100x100 :
  outcome (resolve_resolution five_clips "100x100") = Val (133, 100)
  /\ (133 * 3 = 100 * 4 <-> 100 mod 3 = 0).
Proof.
  apply (resolution_width_truncated five_clips "100x100" 100 100).
  - reflexivity.
  - lia.
  - reflexivity.
Defined.

Lemma no_matches_nothing_found (w : world) (directory : string) :
  flat_map (glob w) (patterns directory) = [] ->
  find_video_files w directory None = [].
Proof.
  intros H. unfold find_video_files.
  change (flat_map _ default_extensions)
    with (flat_map (glob w) (patterns directory)).
  rewrite H. reflexivity.
Qed.

(** C8: for every root directory, discovery returns the paths matched by
    the extension patterns, in ascending lexicographic order of the
    code points of the path string; the order is not numeric-aware
    (clip10 sorts before clip2); and when nothing matches the result is
    the empty sequence (the function is total: it has no failure
    result). *)
Theorem discovery_sorted_lexicographic (w : world) (directory : string) :
  let found := find_video_files w directory None in
  let matches := flat_map (glob w) (patterns directory) in
  StronglySorted str_le found
  /\ Permutation found matches
  /\ (matches = [] -> found = [])
  /\ find_video_files numbered_names "/v" None
     = ["/v/clip1.mp4"; "/v/clip10.mp4"; "/v/clip2.mp4"].
Proof.
  cbv zeta. repeat split.
  - apply SortFacts.sort_sorted.
  - unfold find_video_files.
    change (flat_map _ default_extensions)
      with (flat_map (glob w) (patterns directory)).
    apply SortFacts.sort_perm.
  - apply no_matches_nothing_found.
Qed.

(** The order is that of the code points, not of the bytes: a name with
    the stray byte 255, read as the lone surrogate U+DCFF, sorts before
    a name with U+E000, whose first byte is 238. *)
Example escaped_byte_sorts_first :
  let stray := "/v/" ++ String (ascii_of_nat 255) ".mp4" in
  let reserved :=
    "/v/" ++ String (ascii_of_nat 238)
               (String (ascii_of_nat 128) (String (ascii_of_nat 128) ".mp4")) in
  Py.code_points stray = [47; 118; 47; 56575; 46; 109; 112; 52]%N
  /\ Py.code_points reserved = [47; 118; 47; 57344; 46; 109; 112; 52]%N
  /\ Py.sort [reserved; stray] = [stray; reserved]
  /\ String.ltb reserved stray = true.
Proof. vm_compute. repeat split. Qed.

Lemma append_assoc (a b c : string) : (a ++ b) ++ c = a ++ (b ++ c).
Proof. induction a as [| x a IH]; cbn; [|rewrite IH]; reflexivity. Qed.

(** C9: when the output option's value equals the default
    'stitched_video.mp4' and a position or a count is given, the output
    name becomes 'stitched-video', then '_position-P' for a given
    position P, then '_number-N' for a given count N, then '.mp4'.  The
    test is on the value alone, so a default that was typed explicitly
    is rewritten too. *)
Theorem default_output_renamed (position number : option Z) :
  position <> None \/ number <> None ->
  let suffix (label : string) (o : option Z) :=
    match o with
    | Some n => "_" ++ label ++ "-" ++ Py.str_of_int n
    | None => ""
    end in
  let name := "stitched-video" ++ suffix "position" position
                ++ suffix "number" number ++ ".mp4" in
  output_name "stitched_video.mp4" position number
  = ([Print (AutoName name)], Val name).
Proof.
  intros H. cbv zeta. unfold output_name.
  destruct position as [p |], number as [n |]; cbn - [Py.str_of_int];
    rewrite ?append_assoc; try reflexivity.
  destruct H; congruence.
Qed.

Lemma default_output_renamed_2_2 :
  output_name "stitched_video.mp4" (Some 2) (Some 2)
  = ([Print (AutoName "stitched-video_position-2_number-2.mp4")],
     Val "stitched-video_position-2_number-2.mp4").
Proof.
  apply (default_output_renamed (Some 2) (Some 2)).
  left. discriminate.
Defined.

(** ** Failures before any clip is encoded *)

Lemma flat_map_all_nil {A B} (f : A -> list B) (l : list A) :
  Forall (fun x => f x = []) l -> flat_map f l = [].
Proof.
  induction 1 as [| x l Hx _ IH]; cbn; [|rewrite Hx, IH]; reflexivity.
Qed.

(** C3, as the specification states it, fails on a directory holding
    only notes.txt and cover.jpg: the run does report that no files were
    found, but only after it has started [ffmpeg -version]. *)
Lemma no_videos_probe_runs : ~ silent_no_match_claim no_videos "/v".
Proof.
  intros H.
  assert (Hglob : Forall (fun pattern => glob no_videos pattern = [])
                    (patterns "/v")).
  { unfold patterns, default_extensions. cbn [map].
    repeat constructor. }
  destruct (H Hglob "out.mp4" true false None None None)
    as (_ & _ & _ & Hinv).
  vm_compute in Hinv. discriminate.
Qed.

(** C3, amended: for every input directory in which no pattern matches,
    discovery returns the empty sequence and, when the ffmpeg version
    probe succeeds, the run returns failure reporting that no files were
    found, having started that one probe and no other subprocess, and
    having written no file. *)
Theorem no_match_fails_after_probe (w : world)
    (input_dir output_file : string) (check_compatibility numbered : bool)
    (target : option (Z * Z)) (position number : option Z) :
  ffmpeg_available w ->
  Forall (fun pattern => glob w pattern = []) (patterns input_dir) ->
  let run := stitch_videos w input_dir output_file check_compatibility
               numbered target position number in
  find_video_files w input_dir None = []
  /\ run = ((preamble input_dir ++ [Print NoVideoFiles])%list, Val false)
  /\ invocations (trace run) = [version_probe]
  /\ written (trace run) = [].
Proof.
  intros Ha Hglob run.
  assert (Hf : find_video_files w input_dir None = []).
  { apply no_matches_nothing_found, flat_map_all_nil, Hglob. }
  assert (Hrun : run = ((preamble input_dir ++ [Print NoVideoFiles])%list,
                        Val false)).
  { apply stitch_videos_no_files; assumption. }
  rewrite Hrun. repeat split. exact Hf.
Qed.

Lemma no_match_fails_after_probe_no_videos :
  let run := stitch_videos no_videos "/v" "out.mp4" true false None None None in
  find_video_files no_videos "/v" None = []
  /\ run = ((preamble "/v" ++ [Print NoVideoFiles])%list, Val false)
  /\ invocations (trace run) = [version_probe]
  /\ written (trace run) = [].
Proof.
  apply (no_match_fails_after_probe no_videos "/v" "out.mp4" true false
           None None None).
  - split; reflexivity.
  - unfold patterns, default_extensions. cbn [map]. repeat constructor.
Defined.

Lemma select_videos_out_of_range (video_files : list string) (p : Z)
    (number : option Z) :
  p < 1 \/ len video_files < p ->
  select_videos video_files (Some p) number
  = ([Print (PositionOutOfRange p (len video_files))], Val None).
Proof.
  intros H. unfold select_videos.
  replace ((p <? 1) || (len video_files <? p)) with true; [reflexivity|].
  symmetry. apply orb_true_iff. rewrite !Z.ltb_lt. exact H.
Qed.

(** C4: for every discovered sequence of length N and every given
    position outside [1, N], the selection step reports the position out
    of range and yields nothing, the run returns failure, and nothing
    follows: no inspection, encoding or concatenation process is started
    and no manifest is written. *)
Theorem position_out_of_range_fails (w : world)
    (input_dir output_file : string) (check_compatibility numbered : bool)
    (target : option (Z * Z)) (p : Z) (number : option Z) :
  ffmpeg_available w ->
  let video_files := find_video_files w input_dir None in
  p < 1 \/ len video_files < p ->
  let run := stitch_videos w input_dir output_file check_compatibility
               numbered target (Some p) number in
  select_videos video_files (Some p) number
    = ([Print (PositionOutOfRange p (len video_files))], Val None)
  /\ outcome run = Val false
  /\ invocations (trace run) = [version_probe]
  /\ written (trace run) = []
  /\ (video_files <> [] ->
      trace run = (preamble input_dir
                   ++ [Print (Found (len video_files));
                       Print (PositionOutOfRange p (len video_files))])%list).
Proof.
  intros Ha video_files Hp run.
  pose proof (select_videos_out_of_range video_files p number Hp) as Hsel.
  split; [exact Hsel|].
  destruct video_files as [| f files] eqn:E.
  - unfold run. rewrite (stitch_videos_no_files w input_dir output_file
                           check_compatibility numbered target (Some p)
                           number Ha E).
    repeat split. congruence.
  - assert (Hne : find_video_files w input_dir None <> []).
    { fold video_files. rewrite E. discriminate. }
    pose proof (stitch_videos_selects w input_dir output_file
                  check_compatibility numbered target (Some p) number
                  Ha Hne) as Hrun.
    cbv zeta in Hrun. fold video_files in Hrun. rewrite E in Hrun.
    rewrite Hsel in Hrun. unfold run. rewrite Hrun.
    repeat split.
Qed.

Lemma position_out_of_range_fails_five_clips :
  let run := stitch_videos five_clips "/v" "out.mp4" true true None
               (Some 6) (Some 2) in
  select_videos (find_video_files five_clips "/v" None) (Some 6) (Some 2)
    = ([Print (PositionOutOfRange 6 5)], Val None)
  /\ outcome run = Val false
  /\ invocations (trace run) = [version_probe]
  /\ written (trace run) = []
  /\ (find_video_files five_clips "/v" None <> [] ->
      trace run = (preamble "/v"
                   ++ [Print (Found 5); Print (PositionOutOfRange 6 5)])%list).
Proof.
  apply (position_out_of_range_fails five_clips "/v" "out.mp4" true true
           None 6 (Some 2)).
  - split; reflexivity.
  - right. vm_compute. reflexivity.
Defined.

Lemma select_videos_zero_count (video_files : list string) (p : Z) :
  1 <= p <= len video_files ->
  select_videos video_files (Some p) (Some 0)
  = ([Print (Selected p (p - 1)); Print (Processing 0)],
     Val (Some (p - 1, []))).
Proof.
  intros H. unfold select_videos.
  replace ((p <? 1) || (len video_files <? p)) with false.
  2:{ symmetry. apply orb_false_iff. rewrite !Z.ltb_ge. lia. }
  cbn [bind ret print emit app].
  replace (Z.min (p - 1 + 0) (len video_files)) with (p - 1) by lia.
  rewrite slice_empty. cbn. rewrite Z.add_0_r. reflexivity.
Qed.

(** C10: for every discovered sequence of length N, every position in
    [1, N] and a count of 0, the selected sequence is empty, no
    inspection, encoding or concatenation process is started, no
    manifest is written, and the run returns failure after reporting
    that no clips could be processed. *)
Theorem zero_count_fails (w : world)
    (input_dir output_file : string) (check_compatibility numbered : bool)
    (target : option (Z * Z)) (p : Z) :
  ffmpeg_available w ->
  let video_files := find_video_files w input_dir None in
  1 <= p <= len video_files ->
  let run := stitch_videos w input_dir output_file check_compatibility
               numbered target (Some p) (Some 0) in
  select_videos video_files (Some p) (Some 0)
    = ([Print (Selected p (p - 1)); Print (Processing 0)],
       Val (Some (p - 1, [])))
  /\ run = ((preamble input_dir
             ++ [Print (Found (len video_files));
                 Print (Selected p (p - 1)); Print (Processing 0)]
             ++ (if check_compatibility then [Print CheckingCompatibility]
                 else [])
             ++ [Print (ReEncoding numbered);
                 Print (PreProcessingComplete 0 0); Print NoClips])%list,
            Val false)
  /\ invocations (trace run) = [version_probe]
  /\ written (trace run) = []
  /\ popens (trace run) = [].
Proof.
  intros Ha video_files Hp run.
  pose proof (select_videos_zero_count video_files p Hp) as Hsel.
  split; [exact Hsel|].
  assert (Hne : find_video_files w input_dir None <> []).
  { fold video_files. destruct video_files; [cbn in Hp; lia | discriminate]. }
  pose proof (stitch_videos_selects w input_dir output_file
                check_compatibility numbered target (Some p) (Some 0)
                Ha Hne) as Hrun.
  cbv zeta in Hrun. fold video_files in Hrun. rewrite Hsel in Hrun.
  assert (Hrun' : run = ((preamble input_dir
             ++ [Print (Found (len video_files));
                 Print (Selected p (p - 1)); Print (Processing 0)]
             ++ (if check_compatibility then [Print CheckingCompatibility]
                 else [])
             ++ [Print (ReEncoding numbered);
                 Print (PreProcessingComplete 0 0); Print NoClips])%list,
            Val false)).
  { unfold run. rewrite Hrun. destruct check_compatibility; reflexivity. }
  rewrite Hrun'. split; [reflexivity|].
  destruct check_compatibility; repeat split.
Qed.

Lemma zero_count_fails_five_clips :
  let run := stitch_videos five_clips "/v" "out.mp4" true false None
               (Some 3) (Some 0) in
  select_videos (find_video_files five_clips "/v" None) (Some 3) (Some 0)
    = ([Print (Selected 3 2); Print (Processing 0)], Val (Some (2, [])))
  /\ run = ((preamble "/v"
             ++ [Print (Found 5); Print (Selected 3 2); Print (Processing 0)]
             ++ [Print CheckingCompatibility]
             ++ [Print (ReEncoding false);
                 Print (PreProcessingComplete 0 0); Print NoClips])%list,
            Val false)
  /\ invocations (trace run) = [version_probe]
  /\ written (trace run) = []
  /\ popens (trace run) = [].
Proof.
  apply (zero_count_fails five_clips "/v" "out.mp4" true false None 3).
  - split; reflexivity.
  - vm_compute. split; discriminate.
Defined.

(** C2: the code does not do what the claim says.  With a count and no
    position the selection computes its slice and then raises
    [TypeError] while formatting its message, which adds an int to the
    absent position; the run ends there, before any clip is inspected or
    encoded. *)
Theorem count_without_position_raises (w : world)
    (input_dir output_file : string) (check_compatibility numbered : bool)
    (target : option (Z * Z)) (n : Z) :
  ffmpeg_available w ->
  let video_files := find_video_files w input_dir None in
  video_files <> [] ->
  stitch_videos w input_dir output_file check_compatibility numbered target
    None (Some n)
  = ((preamble input_dir ++ [Print (Found (len video_files))])%list,
     Exn TypeError).
Proof.
  intros Ha video_files Hne.
  rewrite (stitch_videos_selects w input_dir output_file check_compatibility
             numbered target None (Some n) Ha Hne).
  reflexivity.
Qed.

Lemma count_without_position_raises_five_clips :
  stitch_videos five_clips "/v" "stitched-video_number-2.mp4" true false
    (Some (1280, 960)) None (Some 2)
  = ((preamble "/v" ++ [Print (Found 5)])%list, Exn TypeError).
Proof.
  apply (count_without_position_raises five_clips "/v"
           "stitched-video_number-2.mp4" true false (Some (1280, 960)) 2).
  - split; reflexivity.
  - vm_compute. discriminate.
Defined.

(** From the command line, [--number 2] alone: the process ends on the
    uncaught [TypeError], with status 1. *)
Example main_count_only_crashes :
  let a := {| args_input_dir := Some "/v"; args_target_dir := None;
              args_output := "stitched_video.mp4"; args_no_check := false;
              args_resolution := "1280x960"; args_numbered := false;
              args_position := None; args_number := Some 2 |} in
  main five_clips a
  = ((Print (AutoName "stitched-video_number-2.mp4")
      :: preamble "/v" ++ [Print (Found 5)])%list,
     Exn TypeError)
  /\ exit_status (outcome (main five_clips a)) = 1.
Proof. split; reflexivity. Qed.

(** ** Encoding and concatenation *)

Lemma filter_none {A} (p : A -> bool) (l : list A) :
  Forall (fun x => p x = false) l -> filter p l = [].
Proof.
  induction 1 as [| x l Hx _ IH]; cbn; [|rewrite Hx, IH]; reflexivity.
Qed.

Lemma select_videos_inv (video_files : list string)
    (position number : option Z) (t : list event) (start_index : Z)
    (selected : list string) :
  select_videos video_files position number
    = (t, Val (Some (start_index, selected))) ->
  match position with
  | Some p =>
      1 <= p <= len video_files
      /\ start_index = p - 1
      /\ selected =
           Py.slice video_files (Some (p - 1))
             (option_map (fun n => Z.min (p - 1 + n) (len video_files))
                number)
  | None => number = None /\ start_index = 0 /\ selected = video_files
  end.
Proof.
  unfold select_videos. destruct position as [p |].
  - destruct ((p <? 1) || (len video_files <? p)) eqn:E.
    + cbn. discriminate.
    + apply orb_false_iff in E. rewrite !Z.ltb_ge in E.
      destruct number as [n |]; cbn; intros H; inversion H;
        (split; [lia|]); split; reflexivity.
  - destruct number as [n |]; cbn; intros H; inversion H.
    repeat split.
Qed.

(** The clip at index [i] of the selection sits at position
    [effective_number position i] of the discovered sequence. *)
Lemma selected_origin (video_files : list string)
    (position number : option Z) (t : list event) (start_index : Z)
    (selected : list string) (k : nat) (src : string) :
  select_videos video_files position number
    = (t, Val (Some (start_index, selected))) ->
  nth_error selected k = Some src ->
  let i := Z.of_nat k + 1 in
  display_number position number start_index i = effective_number position i
  /\ nth_error video_files (Z.to_nat (effective_number position i - 1))
     = Some src.
Proof.
  intros Hsel Hk i. apply select_videos_inv in Hsel.
  unfold display_number, effective_number.
  destruct position as [p |].
  - destruct Hsel as (Hp & Hs & Hl). subst start_index selected.
    split; [destruct number; lia|].
    apply slice_nth in Hk; [|lia].
    replace (Z.to_nat (p + i - 1 - 1)) with (Z.to_nat (p - 1) + k)%nat
      by (unfold i; lia).
    exact Hk.
  - destruct Hsel as (Hn & Hs & Hl). subst number start_index selected.
    split; [reflexivity|].
    replace (Z.to_nat (i - 1)) with k by (unfold i; lia). exact Hk.
Qed.

Lemma vf_filter_numbered (target_w target_h display : Z) :
  vf_filter true target_w target_h display
  = vf_filter false target_w target_h display
    ++ ",drawtext=text=" ++ Py.str_of_int display
    ++ ":fontcolor=black:fontsize=48:box=1:boxcolor=white@1:boxborderw=20:x=20:y=20".
Proof.
  unfold vf_filter, Py.join. cbn - [Py.str_of_int].
  repeat (rewrite !append_assoc; cbn - [Py.str_of_int]).
  reflexivity.
Qed.

Section Claims.

Variable w : world.
Variables (input_dir output_file : string).
Variable check_compatibility : bool.
Variable target : option (Z * Z).
Variables (position number : option Z).
Variables (t_sel : list event) (start_index : Z) (selected : list string).

Let video_files := find_video_files w input_dir None.
Let target_w := fst (target_of target).
Let target_h := snd (target_of target).

(** C7: with numbering on, the clip at 1-based index i of the selected
    sequence is encoded with the overlay number position + i - 1 when a
    position is given and i otherwise; that number is the clip's
    1-based position in the discovered sequence, and it is the text of
    the drawtext filter appended to the scale, crop and pad filters. *)
Theorem overlay_number_is_original_position (k : nat) (src : string) :
  ffmpeg_available w ->
  select_videos video_files position number
    = (t_sel, Val (Some (start_index, selected))) ->
  (check_compatibility = true -> ffprobe_installed w = true) ->
  nth_error selected k = Some src ->
  let i := Z.of_nat k + 1 in
  let shown := effective_number position i in
  let run := stitch_videos w input_dir output_file check_compatibility true
               target position number in
  display_number position number start_index i = shown
  /\ nth_error video_files (Z.to_nat (shown - 1)) = Some src
  /\ In (encode_cmd src (vf_filter true target_w target_h shown)
           (clip_dst (temp_dir w) i))
        (invocations (trace run))
  /\ vf_filter true target_w target_h shown
     = vf_filter false target_w target_h shown
       ++ ",drawtext=text=" ++ Py.str_of_int shown
       ++ ":fontcolor=black:fontsize=48:box=1:boxcolor=white@1:boxborderw=20:x=20:y=20".
Proof.
  intros Ha Hsel Hp Hk i shown run.
  destruct (selected_origin video_files position number t_sel start_index
              selected k src Hsel Hk) as (Hd & Ho).
  fold i shown in Hd, Ho.
  split; [exact Hd|]. split; [exact Ho|].
  split; [|apply vf_filter_numbered].
  assert (Hne : find_video_files w input_dir None <> []).
  { fold video_files. intros E. rewrite E in Ho.
    destruct (Z.to_nat (shown - 1)); discriminate. }
  destruct (stitch_videos_effects w input_dir output_file
              check_compatibility true target position number t_sel
              start_index selected Ha Hne Hsel Hp) as (Hinv & _).
  fold run in Hinv. rewrite Hinv.
  right. apply in_or_app. right. apply in_or_app. left.
  apply in_map_iff. exists (i, src). split.
  - unfold clip_cmd. cbn [fst snd]. rewrite Hd. reflexivity.
  - apply (proj1 (enumerate_nth selected 1 k src)) in Hk.
    replace (1 + Z.of_nat k) with i in Hk by (unfold i; lia).
    eapply nth_error_In. exact Hk.
Qed.

Variable numbered : bool.

Let clips := Py.enumerate 1 selected.
Let ok := clip_ok w numbered target_w target_h position number start_index.
Let run := stitch_videos w input_dir output_file check_compatibility numbered
             target position number.

(** C6: when every one of the N encoder invocations of the selected
    clips fails, the run reports that no clip could be processed and
    returns failure; it has started the version probe, the advisory
    inspections and the N encoders and nothing else: no manifest is
    written and no concatenation process is started. *)
Theorem all_clips_fail_no_concatenation :
  ffmpeg_available w ->
  video_files <> [] ->
  select_videos video_files position number
    = (t_sel, Val (Some (start_index, selected))) ->
  (check_compatibility = true -> ffprobe_installed w = true) ->
  Forall (fun c => ok c = false) clips ->
  outcome run = Val false
  /\ written (trace run) = []
  /\ popens (trace run) = []
  /\ In (Print NoClips) (trace run)
  /\ invocations (trace run)
     = (version_probe
        :: (if check_compatibility
            then map ffprobe_cmd (Py.slice selected None (Some 10)) else [])
        ++ map (fun c => clip_cmd w numbered target_w target_h position
                           number start_index (fst c) (snd c)) clips)%list.
Proof.
  intros Ha Hne Hsel Hp Hall.
  destruct (stitch_videos_effects w input_dir output_file
              check_compatibility numbered target position number t_sel
              start_index selected Ha Hne Hsel Hp)
    as (Hinv & Hwr & Hpo & Hout & _ & Hnone).
  fold run in Hinv, Hwr, Hpo, Hout, Hnone.
  assert (E : processed_of w numbered (target_of target) position number
                start_index selected = []).
  { unfold processed_of. fold target_w target_h ok clips.
    rewrite (filter_none ok clips Hall). reflexivity. }
  rewrite E in *. cbn [is_empty] in *.
  rewrite app_nil_r in Hinv. fold target_w target_h clips in Hinv.
  repeat split; try assumption. apply Hnone. reflexivity.
Qed.

(** C5: when exactly K of the N selected clips fail to encode and
    K < N, every failing clip is reported and skipped, and one manifest
    is written, [video_list.txt] in the scratch directory.  Its text is
    N - K entries, one per surviving clip in increasing index order
    (the order of the selected sequence): the word [file], then between
    single quotes the absolute path of the clip's scratch file with
    every single quote in it replaced by quote, double quote, quote,
    double quote, quote, then a line feed.  The concatenation process
    is started on that manifest, with stream copy onto the output file,
    and its exit status decides the result of the run. *)
Theorem partial_failure_still_concatenates (K : nat) :
  ffmpeg_available w ->
  select_videos video_files position number
    = (t_sel, Val (Some (start_index, selected))) ->
  (check_compatibility = true -> ffprobe_installed w = true) ->
  List.length (filter (fun c => negb (ok c)) clips) = K ->
  (K < List.length selected)%nat ->
  let survivors := filter ok clips in
  let double_quote := String (ascii_of_nat 34) EmptyString in
  let line_feed := String (ascii_of_nat 10) EmptyString in
  let entry (c : Z * string) :=
    "file '"
    ++ Py.replace_char "'" ("'" ++ double_quote ++ "'" ++ double_quote ++ "'")
         (abspath w
            (path_join (temp_dir w)
               ("processed_" ++ Py.fmt_05d (fst c) ++ ".mp4")))
    ++ "'" ++ line_feed in
  let entries := map entry survivors in
  let list_path := path_join (temp_dir w) "video_list.txt" in
  let cmd :=
    ["ffmpeg"; "-f"; "concat"; "-safe"; "0"; "-i"; list_path;
     "-c"; "copy"; "-y"; output_file] in
  List.length survivors = (List.length selected - K)%nat
  /\ StronglySorted Z.lt (map fst survivors)
  /\ (forall c, In c survivors ->
        nth_error selected (Z.to_nat (fst c - 1)) = Some (snd c))
  /\ (forall c, In c clips -> ok c = false ->
        In (Print (FailedClip (snd c))) (trace run))
  /\ List.length entries = (List.length selected - K)%nat
  /\ written (trace run) = [(list_path, String.concat "" entries)]
  /\ popens (trace run) = [cmd]
  /\ outcome run = Val (exit_code w cmd =? 0).
Proof.
  intros Ha Hsel Hp HK Hlt survivors double_quote line_feed entry entries
    list_path cmd.
  set (manifest :=
         manifest_of w
           (map (fun c => clip_dst (temp_dir w) (fst c)) survivors)).
  assert (Hmanifest : manifest = (list_path, String.concat "" entries)).
  { unfold manifest, manifest_of, entries. rewrite map_map. reflexivity. }
  change cmd with (concat_cmd (fst manifest) output_file).
  assert (Hne : video_files <> []).
  { destruct (nth_error selected 0) as [s0 |] eqn:E0;
      [|apply nth_error_None in E0; lia].
    destruct (selected_origin video_files position number t_sel start_index
                selected 0 s0 Hsel E0) as (_ & Ho).
    intros E. rewrite E in Ho. destruct (Z.to_nat _); discriminate. }
  destruct (stitch_videos_effects w input_dir output_file
              check_compatibility numbered target position number t_sel
              start_index selected Ha Hne Hsel Hp)
    as (_ & Hwr & Hpo & Hout & Hfail & _).
  fold run in Hwr, Hpo, Hout, Hfail.
  unfold processed_of in Hwr, Hpo, Hout.
  fold target_w target_h ok clips in Hwr, Hpo, Hout, Hfail.
  fold survivors in Hwr, Hpo, Hout. fold manifest in Hwr, Hpo, Hout.
  fold cmd in Hpo, Hout.
  assert (Hlen : List.length survivors = (List.length selected - K)%nat).
  { pose proof (filter_split_length ok clips) as Hs.
    unfold clips at 3 in Hs. rewrite enumerate_length in Hs.
    fold survivors in Hs. lia. }
  assert (Hempty : is_empty (map (fun c => clip_dst (temp_dir w) (fst c))
                               survivors) = false).
  { apply is_empty_false. rewrite length_map. lia. }
  rewrite Hempty in Hwr, Hpo, Hout.
  split; [exact Hlen|].
  split; [apply filter_increasing, enumerate_increasing|].
  split.
  { intros [i src] Hin. apply filter_In in Hin. destruct Hin as [Hin _].
    apply In_nth_error in Hin. destruct Hin as [k Hk].
    assert (Hsrc : nth_error selected k = Some src).
    { assert (Hs : nth_error (map snd clips) k = Some src)
        by (rewrite nth_error_map, Hk; reflexivity).
      unfold clips in Hs. rewrite enumerate_snd in Hs. exact Hs. }
    pose proof (proj1 (enumerate_nth selected 1 k src) Hsrc) as Hpair.
    fold clips in Hpair.
    assert (Hi : i = 1 + Z.of_nat k) by congruence.
    cbn [fst snd]. replace (Z.to_nat (i - 1)) with k by lia.
    exact Hsrc. }
  split; [exact Hfail|].
  split; [unfold entries; rewrite length_map; exact Hlen|].
  rewrite <- Hmanifest. repeat split; assumption.
Qed.

End Claims.

(** [main] turns a run that returns failure into exit status 1. *)
Lemma failed_run_exits_1 (w : world) (a : args) (input_dir : string)
    (t_res t_out : list event) (resolution : Z * Z) (output : string) :
  match args_target_dir a with
  | Some (String c d) => Some (String c d)
  | _ => args_input_dir a
  end = Some input_dir ->
  isdir w input_dir = true ->
  resolve_resolution w (args_resolution a) = (t_res, Val resolution) ->
  output_name (args_output a) (args_position a) (args_number a)
    = (t_out, Val output) ->
  outcome (stitch_videos w input_dir output (negb (args_no_check a))
             (args_numbered a) (Some resolution) (args_position a)
             (args_number a)) = Val false ->
  exit_status (outcome (main w a)) = 1.
Proof.
  intros Hdir Hisdir Hres Hout Hrun. unfold main.
  rewrite Hdir, Hisdir. cbn [negb].
  rewrite Hres, bind_val, Hout, bind_val. cbn [outcome snd].
  destruct (stitch_videos _ _ _ _ _ _ _ _) as [t r].
  cbn [outcome snd] in Hrun. subst r. reflexivity.
Qed.

(** ** The theorems at concrete runs *)

(** Five discovered files, position 2, count 2: the two encoded clips
    are the second and third discovered files and their overlays read 2
    and 3. *)
Lemma overlay_reads_two_and_three :
  let run := stitch_videos five_clips "/v" "out.mp4" true true None
               (Some 2) (Some 2) in
  let overlay (n : string) :=
    ",drawtext=text=" ++ n
    ++ ":fontcolor=black:fontsize=48:box=1:boxcolor=white@1:boxborderw=20:x=20:y=20" in
  (display_number (Some 2) (Some 2) 1 1 = 2
   /\ nth_error (find_video_files five_clips "/v" None) 1 = Some "/v/b.mp4"
   /\ In (encode_cmd "/v/b.mp4" (vf_filter true 1280 960 2)
            "/tmp/tmpx/processed_00001.mp4")
         (invocations (trace run))
   /\ vf_filter true 1280 960 2 = vf_filter false 1280 960 2 ++ overlay "2")
  /\ (display_number (Some 2) (Some 2) 1 2 = 3
      /\ nth_error (find_video_files five_clips "/v" None) 2 = Some "/v/c.mov"
      /\ In (encode_cmd "/v/c.mov" (vf_filter true 1280 960 3)
               "/tmp/tmpx/processed_00002.mp4")
            (invocations (trace run))
      /\ vf_filter true 1280 960 3 = vf_filter false 1280 960 3 ++ overlay "3").
Proof.
  split.
  - apply (overlay_number_is_original_position five_clips "/v" "out.mp4" true
             None (Some 2) (Some 2)
             [Print (Selected 2 3); Print (Processing 2)] 1
             ["/v/b.mp4"; "/v/c.mov"] 0 "/v/b.mp4").
    + split; reflexivity.
    + reflexivity.
    + intros _. reflexivity.
    + reflexivity.
  - apply (overlay_number_is_original_position five_clips "/v" "out.mp4" true
             None (Some 2) (Some 2)
             [Print (Selected 2 3); Print (Processing 2)] 1
             ["/v/b.mp4"; "/v/c.mov"] 1 "/v/c.mov").
    + split; reflexivity.
    + reflexivity.
    + intros _. reflexivity.
    + reflexivity.
Defined.

(** Two discovered files, both refused by the encoder. *)
Lemma all_broken_no_concatenation :
  let run := stitch_videos all_broken "/v" "out.mp4" false false None
               None None in
  outcome run = Val false
  /\ written (trace run) = []
  /\ popens (trace run) = []
  /\ In (Print NoClips) (trace run)
  /\ invocations (trace run)
     = (version_probe
        :: []
        ++ map (fun c => clip_cmd all_broken false 1280 960 None None 0
                           (fst c) (snd c))
             (Py.enumerate 1 ["/v/a.mp4"; "/v/b.mp4"]))%list.
Proof.
  apply (all_clips_fail_no_concatenation all_broken "/v" "out.mp4" false None
           None None [] 0 ["/v/a.mp4"; "/v/b.mp4"] false).
  - split; reflexivity.
  - vm_compute. discriminate.
  - reflexivity.
  - discriminate.
  - repeat constructor.
Defined.

(** Five discovered files of which the third is refused: K = 1, N = 5. *)
Lemma one_of_five_fails_still_concatenates :
  let clips := Py.enumerate 1 (find_video_files five_clips "/v" None) in
  let ok := clip_ok five_clips false 1280 960 None None 0 in
  let survivors := filter ok clips in
  let line_feed := String (ascii_of_nat 10) EmptyString in
  let entries :=
    ["file '/tmp/tmpx/processed_00001.mp4'" ++ line_feed;
     "file '/tmp/tmpx/processed_00002.mp4'" ++ line_feed;
     "file '/tmp/tmpx/processed_00004.mp4'" ++ line_feed;
     "file '/tmp/tmpx/processed_00005.mp4'" ++ line_feed] in
  let list_path := "/tmp/tmpx/video_list.txt" in
  let cmd :=
    ["ffmpeg"; "-f"; "concat"; "-safe"; "0"; "-i"; list_path;
     "-c"; "copy"; "-y"; "out.mp4"] in
  let run := stitch_videos five_clips "/v" "out.mp4" false false None
               None None in
  map fst survivors = [1; 2; 4; 5]
  /\ (List.length survivors = (5 - 1)%nat
      /\ StronglySorted Z.lt (map fst survivors)
      /\ (forall c, In c survivors ->
            nth_error (find_video_files five_clips "/v" None)
              (Z.to_nat (fst c - 1)) = Some (snd c))
      /\ (forall c, In c clips -> ok c = false ->
            In (Print (FailedClip (snd c))) (trace run))
      /\ List.length entries = (5 - 1)%nat
      /\ written (trace run) = [(list_path, String.concat "" entries)]
      /\ popens (trace run) = [cmd]
      /\ outcome run = Val (exit_code five_clips cmd =? 0)).
Proof.
  split; [reflexivity|].
  apply (partial_failure_still_concatenates five_clips "/v" "out.mp4" false
           None None None [] 0 (find_video_files five_clips "/v" None)
           false 1%nat).
  - split; reflexivity.
  - reflexivity.
  - discriminate.
  - reflexivity.
  - vm_compute. lia.
Defined.

(** * Further properties of the script *)

(** ** The version probe and the selection *)

Lemma stitch_videos_unavailable (w : world)
    (input_dir output_file : string) (check_compatibility numbered : bool)
    (target : option (Z * Z)) (position number : option Z) :
  ffmpeg_installed w = false \/ exit_code w version_probe <> 0 ->
  stitch_videos w input_dir output_file check_compatibility numbered target
    position number
  = ((Print Banner :: Print Rule
      :: (if ffmpeg_installed w then [Run version_probe] else [])
      ++ [Print FfmpegMissing; Print (InstallHint 0); Print (InstallHint 1);
          Print (InstallHint 2); Print (InstallHint 3)])%list,
     Val false).
Proof.
  intros H. unfold stitch_videos, check_ffmpeg, subprocess_run.
  destruct (ffmpeg_installed w) eqn:Hi.
  - destruct H as [H | H]; [discriminate|].
    apply Z.eqb_neq in H. rewrite H. reflexivity.
  - reflexivity.
Qed.

(** X1: when ffmpeg is missing, or its version probe exits non-zero,
    the run returns failure after printing the banner, the missing
    ffmpeg message and the four installation hints, and nothing else:
    nothing is written and no process other than the probe itself is
    started. *)
Theorem ffmpeg_unavailable_fails (w : world)
    (input_dir output_file : string) (check_compatibility numbered : bool)
    (target : option (Z * Z)) (position number : option Z) :
  ffmpeg_installed w = false \/ exit_code w version_probe <> 0 ->
  let run := stitch_videos w input_dir output_file check_compatibility
               numbered target position number in
  outcome run = Val false
  /\ printed (trace run)
     = [Banner; Rule; FfmpegMissing; InstallHint 0; InstallHint 1;
        InstallHint 2; InstallHint 3]
  /\ invocations (trace run)
     = (if ffmpeg_installed w then [version_probe] else [])
  /\ written (trace run) = []
  /\ popens (trace run) = [].
Proof.
  intros H run. unfold run.
  rewrite (stitch_videos_unavailable w input_dir output_file
             check_compatibility numbered target position number H).
  destruct (ffmpeg_installed w); repeat split.
Qed.

Lemma ffmpeg_unavailable_fails_without_ffmpeg :
  let run := stitch_videos (without_ffmpeg five_clips) "/v" "out.mp4" true
               false None None None in
  outcome run = Val false
  /\ printed (trace run)
     = [Banner; Rule; FfmpegMissing; InstallHint 0; InstallHint 1;
        InstallHint 2; InstallHint 3]
  /\ invocations (trace run) = []
  /\ written (trace run) = []
  /\ popens (trace run) = [].
Proof.
  apply (ffmpeg_unavailable_fails (without_ffmpeg five_clips) "/v" "out.mp4"
           true false None None None).
  left. reflexivity.
Defined.

Lemma len_skipn {A} (l : list A) (k : Z) :
  0 <= k <= len l -> len (skipn (Z.to_nat k) l) = len l - k.
Proof. intros H. unfold len in *. rewrite length_skipn. lia. Qed.

Lemma slice_from {A} (l : list A) (lo : Z) :
  0 <= lo <= len l ->
  Py.slice l (Some lo) None = skipn (Z.to_nat lo) l.
Proof.
  intros H. unfold Py.slice, Py.clamp_index. fold (len l).
  replace (lo <? 0) with false by (symmetry; apply Z.ltb_ge; lia).
  rewrite Z.min_l by lia.
  apply firstn_all2. rewrite length_skipn. unfold len in *. lia.
Qed.

Lemma slice_count {A} (l : list A) (lo n : Z) :
  0 <= lo <= len l -> 0 <= n ->
  Py.slice l (Some lo) (Some (Z.min (lo + n) (len l)))
  = firstn (Z.to_nat n) (skipn (Z.to_nat lo) l).
Proof.
  intros Hlo Hn. unfold Py.slice, Py.clamp_index. fold (len l).
  replace (lo <? 0) with false by (symmetry; apply Z.ltb_ge; lia).
  replace (Z.min (lo + n) (len l) <? 0) with false
    by (symmetry; apply Z.ltb_ge; lia).
  rewrite (Z.min_l lo) by lia.
  rewrite (Z.min_l (Z.min (lo + n) (len l))) by lia.
  destruct (Z.le_gt_cases (lo + n) (len l)) as [Hle | Hgt].
  - rewrite Z.min_l by lia. f_equal. lia.
  - rewrite Z.min_r by lia.
    rewrite !firstn_all2; [reflexivity | |];
      rewrite length_skipn; unfold len in *; lia.
Qed.

Lemma slice_negative_count {A} (l : list A) (lo n : Z) :
  0 <= lo <= len l -> n < 0 ->
  Py.slice l (Some lo) (Some (Z.min (lo + n) (len l)))
  = if lo + n <? 0 then firstn (Z.to_nat (len l + n)) (skipn (Z.to_nat lo) l)
    else [].
Proof.
  intros Hlo Hn. unfold Py.slice, Py.clamp_index. fold (len l).
  replace (lo <? 0) with false by (symmetry; apply Z.ltb_ge; lia).
  rewrite (Z.min_l lo) by lia. rewrite (Z.min_l (lo + n)) by lia.
  destruct (lo + n <? 0) eqn:E.
  - apply Z.ltb_lt in E.
    assert (Z.to_nat (Z.max 0 (lo + n + len l) - lo)
            = Z.to_nat (len l + n)) as -> by lia.
    reflexivity.
  - apply Z.ltb_ge in E. rewrite Z.min_l by lia.
    replace (Z.to_nat (lo + n - lo)) with 0%nat by lia. reflexivity.
Qed.

Lemma select_videos_in_range (video_files : list string) (p : Z)
    (number : option Z) :
  1 <= p <= len video_files ->
  let selected :=
    match number with
    | None => Py.slice video_files (Some (p - 1)) None
    | Some n =>
        Py.slice video_files (Some (p - 1))
          (Some (Z.min (p - 1 + n) (len video_files)))
    end in
  select_videos video_files (Some p) number
  = ([Print (Selected p (p + len selected - 1));
      Print (Processing (len selected))],
     Val (Some (p - 1, selected))).
Proof.
  intros H. cbv zeta. unfold select_videos.
  replace ((p <? 1) || (len video_files <? p)) with false.
  2:{ symmetry. apply orb_false_iff. rewrite !Z.ltb_ge. lia. }
  destruct number; reflexivity.
Qed.

(** X2: with a position in [1, N] and no count, the selection is the
    tail of the discovered sequence from that position on, and the
    reported range ends at N. *)
Theorem position_only_selects_tail (video_files : list string) (p : Z) :
  1 <= p <= len video_files ->
  select_videos video_files (Some p) None
  = ([Print (Selected p (len video_files));
      Print (Processing (len video_files - p + 1))],
     Val (Some (p - 1, skipn (Z.to_nat (p - 1)) video_files))).
Proof.
  intros H. rewrite (select_videos_in_range video_files p None H).
  cbv zeta. rewrite slice_from by lia. rewrite len_skipn by lia.
  replace (p + (len video_files - (p - 1)) - 1) with (len video_files)
    by lia.
  replace (len video_files - (p - 1)) with (len video_files - p + 1) by lia.
  reflexivity.
Qed.

Lemma position_only_selects_tail_3_of_5 :
  select_videos ["a"; "b"; "c"; "d"; "e"] (Some 3) None
  = ([Print (Selected 3 5); Print (Processing 3)],
     Val (Some (2, ["c"; "d"; "e"]))).
Proof.
  apply (position_only_selects_tail ["a"; "b"; "c"; "d"; "e"] 3).
  vm_compute. split; discriminate.
Defined.

(** X3: with a position in [1, N] and a count n >= 0, the selection is
    the first n files of the tail from that position, cut short at the
    end of the sequence: min(n, N - position + 1) files. *)
Theorem position_and_count_select_window (video_files : list string)
    (p n : Z) :
  1 <= p <= len video_files ->
  0 <= n ->
  let selected :=
    firstn (Z.to_nat n) (skipn (Z.to_nat (p - 1)) video_files) in
  select_videos video_files (Some p) (Some n)
  = ([Print (Selected p (p + len selected - 1));
      Print (Processing (len selected))],
     Val (Some (p - 1, selected)))
  /\ len selected = Z.min n (len video_files - p + 1).
Proof.
  intros Hp Hn selected. split.
  - rewrite (select_videos_in_range video_files p (Some n) Hp).
    cbv zeta. rewrite slice_count by lia. reflexivity.
  - unfold selected, len in *. rewrite length_firstn, length_skipn. lia.
Qed.

Lemma position_and_count_select_window_4_5_of_5 :
  let selected := firstn 5 (skipn 3 ["a"; "b"; "c"; "d"; "e"]) in
  select_videos ["a"; "b"; "c"; "d"; "e"] (Some 4) (Some 5)
  = ([Print (Selected 4 (4 + len selected - 1));
      Print (Processing (len selected))],
     Val (Some (3, selected)))
  /\ len selected = Z.min 5 (5 - 4 + 1).
Proof.
  apply (position_and_count_select_window ["a"; "b"; "c"; "d"; "e"] 4 5).
  - vm_compute. split; discriminate.
  - lia.
Defined.

(** X4: a negative count is not refused.  With a position in [1, N] and
    a count n < 0, the end index position - 1 + n is handed to the slice
    as it is: when it is negative it counts from the end of the
    sequence, and the selection is the first N + n files of the tail
    from the position (none when N + n <= 0); when it is zero or more
    the selection is empty. *)
Theorem negative_count_counts_from_end (video_files : list string)
    (p n : Z) :
  1 <= p <= len video_files ->
  n < 0 ->
  let selected :=
    if p - 1 + n <? 0
    then firstn (Z.to_nat (len video_files + n))
           (skipn (Z.to_nat (p - 1)) video_files)
    else [] in
  select_videos video_files (Some p) (Some n)
  = ([Print (Selected p (p + len selected - 1));
      Print (Processing (len selected))],
     Val (Some (p - 1, selected))).
Proof.
  intros Hp Hn selected.
  rewrite (select_videos_in_range video_files p (Some n) Hp).
  cbv zeta. rewrite slice_negative_count by lia. reflexivity.
Qed.

Lemma negative_count_counts_from_end_1_minus_2_of_5 :
  select_videos ["a"; "b"; "c"; "d"; "e"] (Some 1) (Some (-2))
  = ([Print (Selected 1 3); Print (Processing 3)],
     Val (Some (0, ["a"; "b"; "c"]))).
Proof.
  apply (negative_count_counts_from_end ["a"; "b"; "c"; "d"; "e"] 1 (-2)).
  - vm_compute. split; discriminate.
  - lia.
Defined.

(** ** The advisory sample *)

Lemma printed_app (a b : list event) :
  printed (a ++ b) = (printed a ++ printed b)%list.
Proof.
  induction a as [| [] a IH]; cbn; rewrite ?IH; reflexivity.
Qed.

Lemma slice_prefix {A} (l : list A) (k : Z) :
  0 <= k -> Py.slice l None (Some k) = firstn (Z.to_nat k) l.
Proof.
  intros Hk. unfold Py.slice, Py.clamp_index. fold (len l).
  replace (k <? 0) with false by (symmetry; apply Z.ltb_ge; lia).
  cbn [skipn Z.to_nat]. rewrite Z.sub_0_r.
  destruct (Z.le_gt_cases k (len l)).
  - rewrite Z.min_l by lia. reflexivity.
  - rewrite Z.min_r by lia.
    rewrite !firstn_all2; [reflexivity | |]; unfold len in *; lia.
Qed.

Lemma sample_files_exact (w : world) (total : Z) (fs : list string) :
  ffprobe_installed w = true ->
  forall i0 acc,
    0 <= i0 -> i0 + len fs <= 100 ->
    exists t,
      sample_files w total (Py.enumerate i0 fs) acc
      = (t, Val (acc ++ filter (fun f => negb (exit_code w (ffprobe_cmd f) =? 0))
                          fs)%list)
      /\ invocations t = map ffprobe_cmd fs
      /\ written t = [] /\ popens t = []
      /\ printed t = if (i0 =? 0) && negb (is_empty fs)
                     then [Checked 1 (Z.min 10 total)] else [].
Proof.
  intros Hi. induction fs as [| f fs IH]; intros i0 acc H0 H100.
  - exists []. cbn. rewrite app_nil_r, andb_false_r. repeat split.
  - cbn [Py.enumerate sample_files filter].
    rewrite (get_video_info_run w f Hi), bind_val.
    assert (Hlen : len (f :: fs) = len fs + 1) by (unfold len; cbn; lia).
    assert (Hpos : 0 <= len fs) by (unfold len; lia).
    destruct (IH (i0 + 1)
                (if exit_code w (ffprobe_cmd f) =? 0 then acc
                 else (acc ++ [f])%list) ltac:(lia) ltac:(lia))
      as (t & Ht & Hinv & Hwr & Hpo & Hpr).
    replace (i0 + 1 =? 0) with false in Hpr
      by (symmetry; apply Z.eqb_neq; lia).
    cbn [andb] in Hpr.
    assert (Hmod : (i0 mod 100 =? 0) = (i0 =? 0)).
    { rewrite Z.mod_small by lia. reflexivity. }
    rewrite Hmod. cbn [is_empty negb]. rewrite andb_true_r.
    destruct (i0 =? 0) eqn:E0.
    + apply Z.eqb_eq in E0. subst i0.
      rewrite bind_print, Ht. cbn [trace outcome fst snd app].
      eexists. split.
      * destruct (exit_code w (ffprobe_cmd f) =? 0); cbn [negb];
          [|rewrite <- app_assoc]; reflexivity.
      * cbn. rewrite Hinv, Hwr, Hpo, Hpr. repeat split.
    + unfold ret at 1. rewrite bind_val, Ht.
      cbn [trace outcome fst snd app].
      eexists. split.
      * destruct (exit_code w (ffprobe_cmd f) =? 0); cbn [negb];
          [|rewrite <- app_assoc]; reflexivity.
      * cbn. rewrite Hinv, Hwr, Hpo, Hpr. repeat split.
Qed.

(** X5: with ffprobe installed the compatibility check never fails and
    never stops the run.  It inspects the first ten selected files, or
    all of them when there are fewer, each once and in order; it prints
    one progress line when there is a file at all, and one warning with
    the number of files whose inspection exited non-zero when there is
    such a file. *)
Theorem sample_inspects_first_ten (w : world) (video_files : list string) :
  ffprobe_installed w = true ->
  let bad := unreadable w video_files in
  let check := check_sample w video_files in
  outcome check = Val tt
  /\ invocations (trace check) = map ffprobe_cmd (firstn 10 video_files)
  /\ written (trace check) = []
  /\ popens (trace check) = []
  /\ printed (trace check)
     = (CheckingCompatibility
        :: (if is_empty video_files then []
            else [Checked 1 (Z.min 10 (len video_files))])
        ++ (if is_empty bad then [] else [Incompatible (len bad)]))%list.
Proof.
  intros Hi bad check. unfold check, check_sample.
  rewrite slice_prefix by lia. change (Z.to_nat 10) with 10%nat.
  destruct (sample_files_exact w (len video_files) (firstn 10 video_files)
              Hi 0 [] ltac:(lia)) as (t & Ht & Hinv & Hwr & Hpo & Hpr).
  { unfold len. rewrite length_firstn. lia. }
  rewrite bind_print, Ht, bind_val. cbn [app trace outcome fst snd].
  fold (unreadable w video_files). fold bad.
  cbn [Z.eqb andb] in Hpr.
  assert (He : is_empty (firstn 10 video_files) = is_empty video_files)
    by (destruct video_files; reflexivity).
  rewrite He in Hpr.
  destruct (is_empty bad); cbn [trace outcome fst snd];
    cbn [invocations written popens printed];
    rewrite ?invocations_app, ?written_app, ?popens_app, ?printed_app,
            Hinv, Hwr, Hpo, Hpr;
    destruct (is_empty video_files); cbn; rewrite ?app_nil_r;
    repeat split.
Qed.

Lemma sample_inspects_first_ten_five_clips :
  let video_files := find_video_files five_clips "/v" None in
  let check := check_sample five_clips video_files in
  outcome check = Val tt
  /\ invocations (trace check) = map ffprobe_cmd (firstn 10 video_files)
  /\ written (trace check) = []
  /\ popens (trace check) = []
  /\ printed (trace check) = [CheckingCompatibility; Checked 1 5; Incompatible 1].
Proof.
  apply (sample_inspects_first_ten five_clips
           (find_video_files five_clips "/v" None)).
  reflexivity.
Defined.

Lemma process_clips_without_ffprobe (w : world) (output_file : string)
    (numbered : bool) (target : option (Z * Z)) (position number : option Z)
    (start_index : Z) (f : string) (rest : list string) :
  ffprobe_installed w = false ->
  process_clips w output_file true numbered target position number
    start_index (f :: rest)
  = ([Print CheckingCompatibility], Exn FileNotFoundError).
Proof.
  intros Hi. unfold process_clips, check_sample.
  rewrite slice_prefix by lia. change (Z.to_nat 10) with 10%nat.
  cbn [firstn Py.enumerate sample_files].
  unfold get_video_info, subprocess_run. rewrite Hi. reflexivity.
Qed.

(** X6: the compatibility check does not handle a missing ffprobe.
    With the check on, ffprobe absent and at least one file selected,
    the first inspection raises [FileNotFoundError] and the run ends
    there, uncaught, before any clip is encoded. *)
Theorem missing_ffprobe_aborts (w : world) (input_dir output_file : string)
    (numbered : bool) (target : option (Z * Z)) (position number : option Z)
    (t_sel : list event) (start_index : Z) (selected : list string) :
  ffmpeg_available w ->
  ffprobe_installed w = false ->
  let video_files := find_video_files w input_dir None in
  select_videos video_files position number
    = (t_sel, Val (Some (start_index, selected))) ->
  selected <> [] ->
  stitch_videos w input_dir output_file true numbered target position number
  = ((preamble input_dir ++ Print (Found (len video_files)) :: t_sel
      ++ [Print CheckingCompatibility])%list,
     Exn FileNotFoundError).
Proof.
  intros Ha Hi video_files Hsel Hne.
  destruct selected as [| f rest]; [congruence|].
  assert (Hfiles : find_video_files w input_dir None <> []).
  { destruct (selected_origin video_files position number t_sel start_index
                (f :: rest) 0 f Hsel eq_refl) as (_ & Ho).
    fold video_files. intros E. rewrite E in Ho.
    destruct (Z.to_nat _); discriminate. }
  rewrite (stitch_videos_selects w input_dir output_file true numbered target
             position number Ha Hfiles).
  fold video_files. rewrite Hsel, bind_val.
  rewrite (process_clips_without_ffprobe w output_file numbered target
             position number start_index f rest Hi).
  reflexivity.
Qed.

Lemma missing_ffprobe_aborts_five_clips :
  stitch_videos (without_ffprobe five_clips) "/v" "out.mp4" true false None
    None None
  = ((preamble "/v" ++ Print (Found 5) :: []
      ++ [Print CheckingCompatibility])%list,
     Exn FileNotFoundError).
Proof.
  apply (missing_ffprobe_aborts (without_ffprobe five_clips) "/v" "out.mp4"
           false None None None [] 0
           (find_video_files five_clips "/v" None)).
  - split; reflexivity.
  - reflexivity.
  - reflexivity.
  - vm_compute. discriminate.
Defined.

(** *** The check changes nothing *)

Lemma same_effects_refl {A} (m : M A) : same_effects m m.
Proof. repeat split. Qed.

Lemma same_effects_bind {A B} (m : M A) (f g : A -> M B) :
  (forall a, same_effects (f a) (g a)) ->
  same_effects (bind m f) (bind m g).
Proof.
  intros H. destruct m as [t [a | e]]; [|apply same_effects_refl].
  rewrite !bind_val. destruct (H a) as (Ho & Hw & Hp).
  unfold same_effects. cbn [trace outcome fst snd].
  rewrite !written_app, !popens_app, Ho, Hw, Hp. repeat split.
Qed.

Lemma process_clips_check_advisory (w : world) (output_file : string)
    (numbered : bool) (target : option (Z * Z)) (position number : option Z)
    (start_index : Z) (video_files : list string) :
  ffprobe_installed w = true ->
  same_effects
    (process_clips w output_file true numbered target position number
       start_index video_files)
    (process_clips w output_file false numbered target position number
       start_index video_files).
Proof.
  intros Hi. unfold process_clips. cbv zeta.
  destruct (sample_step_run w true video_files (fun _ => Hi))
    as (t & Ht & _ & Hwr & Hpo).
  rewrite Ht. unfold ret at 2. rewrite !bind_val.
  unfold same_effects. cbn [trace outcome fst snd app].
  rewrite written_app, popens_app, Hwr, Hpo. repeat split.
Qed.

(** X7: the compatibility check is advisory.  With ffprobe installed,
    a run with the check and a run without it end with the same result,
    write the same manifest and start the same concatenation, whatever
    the inspections report. *)
Theorem compatibility_check_is_advisory (w : world)
    (input_dir output_file : string) (numbered : bool)
    (target : option (Z * Z)) (position number : option Z) :
  ffprobe_installed w = true ->
  same_effects
    (stitch_videos w input_dir output_file true numbered target position
       number)
    (stitch_videos w input_dir output_file false numbered target position
       number).
Proof.
  intros Hi. unfold stitch_videos.
  apply same_effects_bind; intros _.
  apply same_effects_bind; intros _.
  apply same_effects_bind; intros found.
  destruct (negb found); [apply same_effects_refl|].
  apply same_effects_bind; intros _.
  apply same_effects_bind; intros _.
  cbv zeta. destruct (is_empty _); [apply same_effects_refl|].
  apply same_effects_bind; intros _.
  apply same_effects_bind; intros selection.
  destruct selection as [[start_index selected] |];
    [|apply same_effects_refl].
  apply process_clips_check_advisory. exact Hi.
Qed.

Lemma compatibility_check_is_advisory_five_clips :
  same_effects
    (stitch_videos five_clips "/v" "out.mp4" true false None None None)
    (stitch_videos five_clips "/v" "out.mp4" false false None None None).
Proof.
  apply (compatibility_check_is_advisory five_clips "/v" "out.mp4" false
           None None None).
  reflexivity.
Defined.

(** ** Every way a run can end *)

Lemma select_videos_raises (video_files : list string)
    (position number : option Z) (t : list event) (e : exn) :
  select_videos video_files position number = (t, Exn e) ->
  e = TypeError /\ position = None /\ number <> None.
Proof.
  unfold select_videos. destruct position as [p |].
  - destruct ((p <? 1) || (len video_files <? p));
      destruct number; cbn; discriminate.
  - destruct number; cbn; intros H; inversion H.
    repeat split. discriminate.
Qed.

Lemma process_clips_nothing_selected (w : world) (output_file : string)
    (check_compatibility numbered : bool) (target : option (Z * Z))
    (position number : option Z) (start_index : Z) :
  process_clips w output_file check_compatibility numbered target position
    number start_index []
  = (((if check_compatibility then [Print CheckingCompatibility] else [])
      ++ [Print (ReEncoding numbered); Print (PreProcessingComplete 0 0);
          Print NoClips])%list,
     Val false).
Proof. destruct check_compatibility; reflexivity. Qed.

Section Endings.

Variable w : world.
Variables (input_dir output_file : string).
Variables (check_compatibility numbered : bool).
Variable target : option (Z * Z).
Variables (position number : option Z).

Let run := stitch_videos w input_dir output_file check_compatibility numbered
             target position number.
Let list_path := path_join (temp_dir w) "video_list.txt".
Let cmd := concat_cmd list_path output_file.

(** A run ends in one of two ways: without a manifest and without a
    concatenation, returning failure or raising one of two exceptions;
    or with one manifest and one concatenation, whose exit status is
    the result. *)
Lemma run_summary :
  ((outcome run = Val false
    \/ exists e, outcome run = Exn e
         /\ ((e = TypeError /\ position = None /\ number <> None)
             \/ (e = FileNotFoundError /\ check_compatibility = true
                 /\ ffprobe_installed w = false)))
   /\ written (trace run) = [] /\ popens (trace run) = [])
  \/ (exists content before,
        written (trace run) = [(list_path, content)]
        /\ popens (trace run) = [cmd]
        /\ invocations (trace run) = (before ++ [cmd])%list
        /\ outcome run = Val (exit_code w cmd =? 0)).
Proof.
  destruct (ffmpeg_installed w) eqn:Hinst.
  2:{ left. unfold run.
      rewrite (stitch_videos_unavailable w input_dir output_file
                 check_compatibility numbered target position number
                 (or_introl Hinst)).
      rewrite Hinst. repeat split. left. reflexivity. }
  destruct (Z.eq_dec (exit_code w version_probe) 0) as [Hexit | Hexit].
  2:{ left. unfold run.
      rewrite (stitch_videos_unavailable w input_dir output_file
                 check_compatibility numbered target position number
                 (or_intror Hexit)).
      rewrite Hinst. repeat split. left. reflexivity. }
  assert (Ha : ffmpeg_available w) by (split; assumption).
  destruct (find_video_files w input_dir None) as [| f0 files] eqn:Ef.
  { left. unfold run.
    rewrite (stitch_videos_no_files w input_dir output_file
               check_compatibility numbered target position number Ha Ef).
    repeat split. left. reflexivity. }
  assert (Hne : find_video_files w input_dir None <> [])
    by (rewrite Ef; discriminate).
  pose proof (stitch_videos_selects w input_dir output_file
                check_compatibility numbered target position number Ha Hne)
    as Hrun.
  cbv zeta in Hrun. fold run in Hrun.
  destruct (select_videos_quiet (find_video_files w input_dir None)
              position number) as (Sinv & Swr & Spo).
  destruct (select_videos (find_video_files w input_dir None) position number)
    as [t_sel [[[start_index selected] |] | e]] eqn:Hsel;
    cbn [trace fst] in Sinv, Swr, Spo.
  - (* the selection succeeded *)
    assert (Hcases : (check_compatibility = true -> ffprobe_installed w = true)
                     \/ (check_compatibility = true
                         /\ ffprobe_installed w = false)).
    { destruct check_compatibility, (ffprobe_installed w); auto. }
    destruct Hcases as [Hp | [Hc Hi]].
    + destruct (stitch_videos_effects w input_dir output_file
                  check_compatibility numbered target position number t_sel
                  start_index selected Ha Hne Hsel Hp)
        as (Hinv & Hwr & Hpo & Hout & _).
      fold run in Hinv, Hwr, Hpo, Hout.
      destruct (is_empty _) eqn:Hem.
      * left. rewrite Hout, Hwr, Hpo. repeat split. left. reflexivity.
      * right. eexists _, _. rewrite Hwr, Hpo, Hout, Hinv.
        split; [reflexivity|]. split; [reflexivity|].
        split; [|reflexivity].
        change (version_probe :: ?a ++ ?b ++ [?c])%list
          with ([version_probe] ++ a ++ b ++ [c])%list.
        rewrite !app_assoc. reflexivity.
    + left. rewrite bind_val in Hrun. rewrite Hc in Hrun.
      destruct selected as [| f rest].
      * rewrite process_clips_nothing_selected in Hrun.
        rewrite Hrun. cbn [trace outcome fst snd].
        unfold preamble. cbn [app written popens].
        rewrite !written_app, !popens_app, Swr, Spo.
        repeat split. left. reflexivity.
      * rewrite (process_clips_without_ffprobe w output_file numbered target
                   position number start_index f rest Hi) in Hrun.
        rewrite Hrun. cbn [trace outcome fst snd].
        unfold preamble. cbn [app written popens].
        rewrite !written_app, !popens_app, Swr, Spo.
        repeat split. right. exists FileNotFoundError.
        split; [reflexivity|]. right. repeat split; assumption.
  - (* the position is out of range *)
    left. rewrite Hrun. cbn [bind ret trace outcome fst snd].
    unfold preamble. cbn [app written popens].
    rewrite !written_app, !popens_app, Swr, Spo.
    repeat split. left. reflexivity.
  - (* the selection raised *)
    left. rewrite Hrun. cbn [bind trace outcome fst snd].
    unfold preamble. cbn [app written popens]. rewrite Swr, Spo.
    repeat split. right. exists e. split; [reflexivity|]. left.
    apply (select_videos_raises _ _ _ _ _ Hsel).
Qed.

(** X8: a run returns success only after the concatenation: exactly
    one manifest, video_list.txt in the scratch directory, has been
    written, exactly one concatenation process has been started, on that
    manifest and the output path, as the last process of the run, and it
    exited with status 0. *)
Theorem success_means_concatenated :
  outcome run = Val true ->
  exists content before,
    written (trace run) = [(list_path, content)]
    /\ popens (trace run) = [cmd]
    /\ invocations (trace run) = (before ++ [cmd])%list
    /\ exit_code w cmd = 0.
Proof.
  intros Hok.
  destruct run_summary
    as [([Hf | (e & He & _)] & _) | (c & b & Hw & Hp & Hi & Ho)].
  - congruence.
  - congruence.
  - exists c, b. split; [exact Hw|]. split; [exact Hp|].
    split; [exact Hi|].
    rewrite Hok in Ho. apply Z.eqb_eq. congruence.
Qed.

(** X9: whatever the world and the options, the script itself writes at
    most one file, and that file is video_list.txt in the scratch
    directory; it never starts a concatenation without having written
    it. *)
Theorem writes_at_most_the_manifest :
  (List.length (written (trace run)) <= 1)%nat
  /\ (forall entry, In entry (written (trace run)) -> fst entry = list_path)
  /\ (popens (trace run) <> [] -> written (trace run) <> []).
Proof.
  destruct run_summary as [(_ & Hw & Hp) | (c & b & Hw & Hp & _)];
    rewrite Hw, Hp; cbn; repeat split; try lia; try congruence;
    try tauto.
  intros entry [<- | []]. reflexivity.
Qed.

(** X10: only two exceptions leave [stitch_videos] when the failures
    of the world are a missing tool or a non-zero exit status:
    [TypeError], for a count without a position, and
    [FileNotFoundError], for a compatibility check without ffprobe.
    Every other failure is a returned False. *)
Theorem escaping_exceptions (e : exn) :
  outcome run = Exn e ->
  (e = TypeError /\ position = None /\ number <> None)
  \/ (e = FileNotFoundError /\ check_compatibility = true
      /\ ffprobe_installed w = false).
Proof.
  intros He.
  destruct run_summary
    as [([Hf | (e' & He' & Hc)] & _) | (c & b & _ & _ & _ & Ho)].
  - congruence.
  - assert (e' = e) by congruence. subst e'. exact Hc.
  - congruence.
Qed.

End Endings.

Lemma success_means_concatenated_five_clips :
  let run := stitch_videos five_clips "/v" "out.mp4" true false None
               None None in
  let list_path := path_join (temp_dir five_clips) "video_list.txt" in
  let cmd := concat_cmd list_path "out.mp4" in
  exists content before,
    written (trace run) = [(list_path, content)]
    /\ popens (trace run) = [cmd]
    /\ invocations (trace run) = (before ++ [cmd])%list
    /\ exit_code five_clips cmd = 0.
Proof.
  apply (success_means_concatenated five_clips "/v" "out.mp4" true false
           None None None).
  reflexivity.
Defined.

Lemma escaping_exceptions_count_only :
  (TypeError = TypeError /\ @None Z = None /\ Some 2 <> None)
  \/ (TypeError = FileNotFoundError /\ true = true
      /\ ffprobe_installed five_clips = false).
Proof.
  apply (escaping_exceptions five_clips "/v" "out.mp4" true false None
           None (Some 2) TypeError).
  reflexivity.
Defined.

(** ** The command line *)

Lemma resolve_resolution_quiet (w : world) (resolution : string) :
  quiet (trace (resolve_resolution w resolution)).
Proof.
  unfold resolve_resolution.
  pose proof (parse_resolution_trace w resolution) as Ht.
  destruct (parse_resolution w resolution) as [t [[res_w res_h] | e]];
    cbn [trace fst] in Ht; subst t.
  - rewrite bind_val. cbn [fst snd app]. unfold four_thirds.
    destruct (negb _); [|repeat split].
    destruct (Py.truediv3 _); repeat split.
  - cbn [bind try_except].
    destruct (is_Exception e); repeat split.
Qed.

Lemma output_name_quiet (output : string) (position number : option Z) :
  quiet (trace (output_name output position number)).
Proof.
  unfold output_name. destruct (_ && _); repeat split.
Qed.

Lemma parse_resolution_raises (w : world) (resolution : string) (e : exn) :
  outcome (parse_resolution w resolution) = Exn e -> is_Exception e = true.
Proof.
  unfold parse_resolution, item, int.
  set (res_parts := Py.split _ _).
  destruct (nth_error res_parts 0) as [p0 |]; cbn [bind ret raise];
    [|intros H; inversion H; reflexivity].
  destruct (if Py.is_ascii p0 then _ else _); cbn [bind ret raise];
    [|intros H; inversion H; reflexivity].
  destruct (nth_error res_parts 1) as [p1 |]; cbn [bind ret raise];
    [|intros H; inversion H; reflexivity].
  destruct (if Py.is_ascii p1 then _ else _); cbn; intros H; inversion H;
    reflexivity.
Qed.

Lemma split_without_separator (sep : ascii) (s : string) :
  Py.contains (String sep EmptyString) s = false -> Py.split sep s = [s].
Proof.
  induction s as [| c s IH]; [reflexivity|].
  cbn [Py.contains String.prefix Py.split].
  destruct (ascii_dec sep c) as [-> | Hne].
  - destruct s; cbn; discriminate.
  - cbn [orb]. intros H. rewrite (IH H).
    destruct (Ascii.eqb_spec c sep); [congruence | reflexivity].
Qed.

(** X11: when the directory given is a directory and the lower-cased
    resolution has no letter x, the program ends right after the
    directory test: the invalid-resolution message is the only thing
    printed, the exit status is 1, no process has been started and no
    file written. *)
Theorem resolution_without_x_exits (w : world) (a : args) (input_dir : string) :
  chosen_dir a = Some input_dir ->
  isdir w input_dir = true ->
  Py.contains "x" (str_lower w (args_resolution a)) = false ->
  main w a = ([Print InvalidResolution], Exn (SystemExit 1))
  /\ exit_status (outcome (main w a)) = 1
  /\ invocations (trace (main w a)) = []
  /\ written (trace (main w a)) = [].
Proof.
  intros Hdir Hisdir Hx.
  assert (Hmain : main w a = ([Print InvalidResolution], Exn (SystemExit 1))).
  { unfold main. fold (chosen_dir a). rewrite Hdir, Hisdir. cbn [negb].
    unfold resolve_resolution, parse_resolution.
    rewrite (split_without_separator "x" _ Hx).
    unfold item, int. cbn [nth_error bind ret].
    destruct (if Py.is_ascii _ then _ else _); reflexivity. }
  rewrite Hmain. repeat split.
Qed.

Lemma resolution_without_x_exits_1280_960 :
  let a := with_resolution plain_args "1280:960" in
  main five_clips a = ([Print InvalidResolution], Exn (SystemExit 1))
  /\ exit_status (outcome (main five_clips a)) = 1
  /\ invocations (trace (main five_clips a)) = []
  /\ written (trace (main five_clips a)) = [].
Proof.
  apply (resolution_without_x_exits five_clips
           (with_resolution plain_args "1280:960") "/v");
    reflexivity.
Defined.

(** X12: a resolution that [int] accepts and whose parsed pair is
    already 4:3 is taken as it is, without a warning and without any
    floating-point step, also when the numbers are too large for a
    float. *)
Theorem four_thirds_resolution_kept (w : world) (resolution : string)
    (res_w res_h : Z) :
  outcome (parse_resolution w resolution) = Val (res_w, res_h) ->
  res_w * 3 = res_h * 4 ->
  resolve_resolution w resolution = ([], Val (res_w, res_h)).
Proof.
  intros Hparse Heq. unfold resolve_resolution.
  pose proof (parse_resolution_trace w resolution) as Ht.
  destruct (parse_resolution w resolution) as [t r].
  cbn [trace outcome fst snd] in Ht, Hparse. subst t r.
  rewrite bind_val. cbn [fst snd app]. unfold four_thirds.
  apply Z.eqb_eq in Heq. rewrite Heq. reflexivity.
Qed.

Lemma four_thirds_resolution_kept_640x480 :
  resolve_resolution five_clips "640X480" = ([], Val (640, 480)).
Proof.
  apply (four_thirds_resolution_kept five_clips "640X480" 640 480);
    reflexivity.
Defined.

(** X13: when the output name differs from the default, or when neither
    a position nor a count is given, the output name is left alone and
    nothing is printed about it. *)
Theorem other_output_names_kept (output : string) (position number : option Z) :
  output <> "stitched_video.mp4" \/ (position = None /\ number = None) ->
  output_name output position number = ([], Val output).
Proof.
  intros H. unfold output_name.
  destruct (String.eqb_spec output "stitched_video.mp4") as [E | E].
  - destruct H as [H | [-> ->]]; [congruence | reflexivity].
  - reflexivity.
Qed.

Lemma other_output_names_kept_custom :
  output_name "holiday.mp4" (Some 2) (Some 3) = ([], Val "holiday.mp4").
Proof.
  apply (other_output_names_kept "holiday.mp4" (Some 2) (Some 3)).
  left. discriminate.
Defined.

(** X14: without a usable directory, neither positional nor --target,
    or with one that is not a directory, the program exits with status 1
    after one message; it starts no process and writes no file. *)
Theorem unusable_directory_exits (w : world) (a : args) :
  chosen_dir a = None
  \/ (exists d, chosen_dir a = Some d /\ isdir w d = false) ->
  exit_status (outcome (main w a)) = 1
  /\ invocations (trace (main w a)) = []
  /\ written (trace (main w a)) = []
  /\ (printed (trace (main w a)) = [NoDirectory]
      \/ exists d, printed (trace (main w a)) = [InvalidDirectory d]).
Proof.
  intros [Hnone | (d & Hd & Hisdir)]; unfold main; fold (chosen_dir a).
  - rewrite Hnone. repeat split. left. reflexivity.
  - rewrite Hd, Hisdir. repeat split. right. exists d. reflexivity.
Qed.

Lemma unusable_directory_exits_not_a_directory :
  let w := without_directories five_clips in
  exit_status (outcome (main w plain_args)) = 1
  /\ invocations (trace (main w plain_args)) = []
  /\ written (trace (main w plain_args)) = []
  /\ (printed (trace (main w plain_args)) = [NoDirectory]
      \/ exists d, printed (trace (main w plain_args)) = [InvalidDirectory d]).
Proof.
  apply (unusable_directory_exits (without_directories five_clips) plain_args).
  right. exists "/v". split; reflexivity.
Defined.

Lemma stitch_videos_no_exit (w : world) (input_dir output_file : string)
    (check_compatibility numbered : bool) (target : option (Z * Z))
    (position number : option Z) (code : Z) :
  outcome (stitch_videos w input_dir output_file check_compatibility numbered
             target position number) <> Exn (SystemExit code).
Proof.
  intros H.
  destruct (run_summary w input_dir output_file check_compatibility numbered
              target position number)
    as [([Hf | (e & He & [(E & _) | (E & _)])] & _) | (c & b & _ & _ & _ & Ho)];
    try congruence.
Qed.

(** X15: the program ends with status 0 only when the concatenation
    process was started, as the last process of the run and the only
    one started with Popen, and exited with status 0. *)
Theorem exit_zero_means_concatenated (w : world) (a : args) :
  exit_status (outcome (main w a)) = 0 ->
  exists output content before,
    let cmd := concat_cmd (path_join (temp_dir w) "video_list.txt") output in
    written (trace (main w a))
      = [(path_join (temp_dir w) "video_list.txt", content)]
    /\ popens (trace (main w a)) = [cmd]
    /\ invocations (trace (main w a)) = (before ++ [cmd])%list
    /\ exit_code w cmd = 0.
Proof.
  unfold main. fold (chosen_dir a).
  destruct (chosen_dir a) as [input_dir |]; [|discriminate].
  destruct (isdir w input_dir); [|discriminate]. cbn [negb].
  destruct (resolve_resolution_quiet w (args_resolution a)) as (R1 & R2 & R3).
  destruct (resolve_resolution w (args_resolution a))
    as [t_res [resolution | e]] eqn:Hres; cbn [trace fst] in R1, R2, R3.
  2:{ cbn [bind outcome snd exit_status].
      unfold resolve_resolution in Hres.
      pose proof (parse_resolution_trace w (args_resolution a)) as Ht.
      destruct (parse_resolution w (args_resolution a))
        as [t [[res_w res_h] | e']] eqn:Hp; cbn [trace fst] in Ht; subst t.
      - rewrite bind_val in Hres. cbn [fst snd app] in Hres.
        unfold four_thirds in Hres.
        destruct (negb _); [|discriminate].
        destruct (Py.truediv3 _); [discriminate|].
        cbn in Hres. inversion Hres. discriminate.
      - cbn [bind try_except] in Hres.
        assert (He : is_Exception e' = true).
        { apply (parse_resolution_raises w (args_resolution a)).
          rewrite Hp. reflexivity. }
        rewrite He in Hres. cbn in Hres. inversion Hres. discriminate. }
  rewrite bind_val.
  destruct (output_name_quiet (args_output a) (args_position a)
              (args_number a)) as (O1 & O2 & O3).
  destruct (output_name (args_output a) (args_position a) (args_number a))
    as [t_out [output | e]] eqn:Hout; cbn [trace fst] in O1, O2, O3.
  2:{ unfold output_name in Hout. destruct (_ && _); discriminate. }
  rewrite bind_val.
  set (run := stitch_videos w input_dir output (negb (args_no_check a))
                (args_numbered a) (Some resolution) (args_position a)
                (args_number a)).
  pose proof (stitch_videos_no_exit w input_dir output
                (negb (args_no_check a)) (args_numbered a) (Some resolution)
                (args_position a) (args_number a)) as Hnoexit.
  pose proof (run_summary w input_dir output
                (negb (args_no_check a)) (args_numbered a) (Some resolution)
                (args_position a) (args_number a)) as Hsum.
  fold run in Hnoexit, Hsum.
  destruct run as [t [[|] | e]].
  - intros _.
    destruct Hsum
      as [([Hf | (e & He & _)] & _) | (content & before & Hw & Hp & Hi & Ho)];
      [discriminate | discriminate |].
    cbn [trace outcome fst snd] in Hw, Hp, Hi, Ho.
    assert (He : exit_code w
                   (concat_cmd (path_join (temp_dir w) "video_list.txt")
                      output) = 0)
      by (apply Z.eqb_eq; congruence).
    exists output, content, before. cbv zeta.
    cbn [bind ret negb trace outcome fst snd app].
    rewrite !app_nil_r.
    rewrite !written_app, !popens_app, !invocations_app.
    rewrite R1, R2, R3, O1, O2, O3, Hw, Hp, Hi.
    cbn [app]. repeat split. exact He.
  - cbn. discriminate.
  - cbn [bind outcome snd exit_status]. destruct e; try discriminate.
    intros ->. exfalso. apply (Hnoexit 0). reflexivity.
Qed.

Lemma exit_zero_means_concatenated_five_clips :
  exists output content before,
    let cmd := concat_cmd (path_join (temp_dir five_clips) "video_list.txt")
                 output in
    written (trace (main five_clips plain_args))
      = [(path_join (temp_dir five_clips) "video_list.txt", content)]
    /\ popens (trace (main five_clips plain_args)) = [cmd]
    /\ invocations (trace (main five_clips plain_args)) = (before ++ [cmd])%list
    /\ exit_code five_clips cmd = 0.
Proof.
  apply (exit_zero_means_concatenated five_clips plain_args).
  reflexivity.
Defined.

(** ** Scratch names, discovery order and the manifest *)

Lemma uint_of_zeros (k : nat) (s : string) :
  option_map N.of_uint (NilEmpty.uint_of_string (Py.zeros k ++ s))
  = option_map N.of_uint (NilEmpty.uint_of_string s).
Proof.
  induction k as [| k IH]; [reflexivity|].
  cbn [Py.zeros append NilEmpty.uint_of_string]. rewrite <- IH.
  destruct (NilEmpty.uint_of_string (Py.zeros k ++ s)) as [d |];
    reflexivity.
Qed.

Lemma uint_of_digits (n : N) :
  option_map N.of_uint
    (NilEmpty.uint_of_string (NilZero.string_of_uint (N.to_uint n)))
  = Some n.
Proof.
  assert (H : forall d,
             option_map N.of_uint
               (NilEmpty.uint_of_string (NilZero.string_of_uint d))
             = Some (N.of_uint d)).
  { intros d. destruct d; try (cbn [NilZero.string_of_uint];
                               rewrite NilEmpty.usu; reflexivity).
    reflexivity. }
  rewrite H. f_equal. apply DecimalN.Unsigned.of_to.
Qed.

(** The padded index reads back as the index. *)
Lemma fmt_05d_reads_back (n : Z) :
  0 <= n ->
  option_map N.of_uint (NilEmpty.uint_of_string (Py.fmt_05d n))
  = Some (Z.to_N n).
Proof.
  intros Hn. unfold Py.fmt_05d.
  replace (n <? 0) with false by (symmetry; apply Z.ltb_ge; lia).
  cbn [append]. rewrite uint_of_zeros, uint_of_digits.
  rewrite Z.abs_eq by lia. reflexivity.
Qed.

Lemma append_cancel_l (a b c : string) : a ++ b = a ++ c -> b = c.
Proof.
  induction a as [| x a IH]; cbn; [auto|].
  intros H. inversion H. auto.
Qed.

Lemma length_append (a b : string) :
  String.length (a ++ b) = (String.length a + String.length b)%nat.
Proof. induction a as [| x a IH]; cbn; [|rewrite IH]; reflexivity. Qed.

Lemma append_cancel_r (a b c : string) : a ++ c = b ++ c -> a = b.
Proof.
  revert b. induction a as [| x a IH]; intros [| y b] H; cbn in H.
  - reflexivity.
  - exfalso. apply (f_equal String.length) in H.
    cbn in H. rewrite length_append in H. lia.
  - exfalso. apply (f_equal String.length) in H.
    cbn in H. rewrite length_append in H. lia.
  - inversion H. f_equal. auto.
Qed.

Lemma path_join_relative (a b c : string) :
  path_join a (String "p" b) = path_join a (String "p" c) -> b = c.
Proof.
  unfold path_join. destruct a as [| x a].
  - intros H. inversion H. reflexivity.
  - destruct (ends_with_slash (String x a)); intros H;
      apply append_cancel_l in H; inversion H; reflexivity.
Qed.

Lemma clip_dst_injective (temp_dir : string) (i j : Z) :
  0 <= i -> 0 <= j -> clip_dst temp_dir i = clip_dst temp_dir j -> i = j.
Proof.
  intros Hi Hj H. unfold clip_dst in H. cbn [append] in H.
  apply path_join_relative in H.
  apply (append_cancel_l "rocessed_") in H.
  apply append_cancel_r in H.
  apply (f_equal (fun s => option_map N.of_uint (NilEmpty.uint_of_string s)))
    in H.
  rewrite !fmt_05d_reads_back in H by assumption.
  inversion H. lia.
Qed.

(** X16: the scratch files of one run never collide.  Whatever the
    number of selected clips, also beyond the five digits of the padded
    index, the destinations of the encoder are pairwise distinct, so no
    clip overwrites another one's result. *)
Theorem scratch_names_distinct (temp_dir : string) (selected : list string) :
  NoDup (map (fun c => clip_dst temp_dir (fst c)) (Py.enumerate 1 selected)).
Proof.
  assert (H : forall l start, 0 <= start ->
            NoDup (map (fun c : Z * string => clip_dst temp_dir (fst c))
                     (Py.enumerate start l))).
  { induction l as [| x l IH]; intros start Hs; cbn; constructor.
    - intros Hin. apply in_map_iff in Hin. destruct Hin as [[j y] [Hd Hin]].
      cbn [fst] in Hd.
      pose proof (enumerate_lower l (start + 1)) as Hlow.
      rewrite Forall_forall in Hlow. specialize (Hlow _ Hin). cbn in Hlow.
      apply clip_dst_injective in Hd; lia.
    - apply IH. lia. }
  apply H. lia.
Qed.

Lemma sorted_permutation_unique (l l' : list string) :
  StronglySorted str_le l -> StronglySorted str_le l' ->
  Permutation l l' -> l = l'.
Proof.
  intros Hl. revert l'. induction Hl as [| x l Hs IH Hall]; intros l' Hl' Hp.
  - apply Permutation_nil in Hp. congruence.
  - destruct l' as [| y l'];
      [apply Permutation_sym, Permutation_nil in Hp; discriminate|].
    apply StronglySorted_inv in Hl'. destruct Hl' as [Hs' Hall'].
    rewrite Forall_forall in Hall, Hall'.
    assert (Hxy : x = y).
    { assert (Hx : In x (y :: l'))
        by (eapply Permutation_in; [exact Hp | left; reflexivity]).
      assert (Hy : In y (x :: l))
        by (eapply Permutation_in;
            [apply Permutation_sym; exact Hp | left; reflexivity]).
      destruct Hx as [-> | Hx]; [reflexivity|].
      destruct Hy as [-> | Hy]; [reflexivity|].
      apply SortFacts.str_le_antisym;
        [apply Hall; exact Hy | apply Hall'; exact Hx]. }
    subst y. f_equal. apply IH; [exact Hs'|].
    eapply Permutation_cons_inv. exact Hp.
Qed.

(** X17: the discovered sequence does not depend on the order in which
    the file system lists the files: two worlds whose glob results agree
    up to order yield the same sequence, for any list of extensions. *)
Theorem discovery_ignores_listing_order (w w' : world) (directory : string)
    (extensions : option (list string)) :
  let pats :=
    map (fun ext => path_join (path_join directory "**") ext)
      match extensions with
      | None => default_extensions
      | Some l => l
      end in
  Permutation (flat_map (glob w) pats) (flat_map (glob w') pats) ->
  find_video_files w directory extensions
  = find_video_files w' directory extensions.
Proof.
  intros pats Hp. unfold find_video_files.
  apply sorted_permutation_unique; try apply SortFacts.sort_sorted.
  rewrite !SortFacts.sort_perm.
  unfold pats in Hp. rewrite !flat_map_concat_map, !map_map in Hp.
  rewrite !flat_map_concat_map. exact Hp.
Qed.

Lemma discovery_ignores_listing_order_shuffled :
  find_video_files five_clips "/v" None
  = find_video_files five_clips_shuffled "/v" None.
Proof.
  apply (discovery_ignores_listing_order five_clips five_clips_shuffled "/v"
           None).
  change (Permutation
            ["/v/a.mp4"; "/v/b.mp4"; "/v/d.mp4"; "/v/c.mov"; "/v/e.mkv"]
            ["/v/d.mp4"; "/v/a.mp4"; "/v/b.mp4"; "/v/c.mov"; "/v/e.mkv"]).
  apply (Permutation_cons_app ["/v/d.mp4"]
           ["/v/b.mp4"; "/v/c.mov"; "/v/e.mkv"]).
  apply (Permutation_cons_app ["/v/d.mp4"] ["/v/c.mov"; "/v/e.mkv"]).
  apply Permutation_refl.
Defined.

Lemma replace_char_absent (c : ascii) (by_ s : string) :
  Py.contains (String c EmptyString) s = false ->
  Py.replace_char c by_ s = s.
Proof.
  induction s as [| d s IH]; [reflexivity|].
  cbn [Py.contains String.prefix Py.replace_char].
  destruct (ascii_dec c d) as [-> | Hne].
  - destruct s; cbn; discriminate.
  - cbn [orb]. intros H. rewrite (IH H).
    destruct (Ascii.eqb_spec d c); [congruence | reflexivity].
Qed.

(** X18: the manifest holds one line per file, in the order given, and
    a file whose absolute path has no single quote is written as it is:
    the line is the word file, a space, and the absolute path between
    single quotes. *)
Theorem manifest_lists_plain_paths (w : world) (video_files : list string)
    (temp_dir : string) :
  Forall (fun f => Py.contains "'" (abspath w f) = false) video_files ->
  create_file_list w video_files temp_dir
  = ([WriteFile (path_join temp_dir "video_list.txt")
        (String.concat ""
           (map (fun f => "file '" ++ abspath w f ++ "'"
                          ++ String (ascii_of_nat 10) EmptyString)
              video_files))],
     Val (path_join temp_dir "video_list.txt")).
Proof.
  intros H. unfold create_file_list, emit, ret. cbn [bind app].
  assert (Hlines : map (file_line w) video_files
                   = map (fun f => "file '" ++ abspath w f ++ "'"
                                   ++ String (ascii_of_nat 10) EmptyString)
                       video_files).
  { apply map_ext_in. intros f Hf.
    rewrite Forall_forall in H. specialize (H f Hf).
    unfold file_line. rewrite (replace_char_absent "'" _ _ H).
    reflexivity. }
  rewrite Hlines. reflexivity.
Qed.

Lemma manifest_lists_plain_paths_two :
  create_file_list five_clips ["/t/processed_00001.mp4"; "/t/processed_00002.mp4"]
    "/t"
  = ([WriteFile (path_join "/t" "video_list.txt")
        (String.concat ""
           (map (fun f => "file '" ++ abspath five_clips f ++ "'"
                          ++ String (ascii_of_nat 10) EmptyString)
              ["/t/processed_00001.mp4"; "/t/processed_00002.mp4"]))],
     Val (path_join "/t" "video_list.txt")).
Proof.
  apply (manifest_lists_plain_paths five_clips
           ["/t/processed_00001.mp4"; "/t/processed_00002.mp4"] "/t").
  repeat constructor.
Defined.

(** ** A height too large for a float *)

Lemma round_half_even_lower (p d : Z) : p / d <= Py.round_half_even p d.
Proof.
  unfold Py.round_half_even.
  destruct (2 * (p mod d) <? d); [lia|].
  destruct (d <? 2 * (p mod d)); [lia|].
  destruct (Z.even (p / d)); lia.
Qed.

Lemma truediv3_overflow (a : Z) :
  3 * 2 ^ 1024 <= Z.abs a -> Py.truediv3 a = None.
Proof.
  intros Ha. unfold Py.truediv3, Py.log2_third.
  assert (Hpow : 0 < 2 ^ 1024) by (apply Z.pow_pos_nonneg; lia).
  replace (a =? 0) with false by (symmetry; apply Z.eqb_neq; lia).
  set (x := Z.abs a) in *.
  replace (3 <=? x) with true by (symmetry; apply Z.leb_le; lia).
  assert (Hq : 2 ^ 1024 <= x / 3) by (apply Z.div_le_lower_bound; lia).
  assert (Hq0 : 0 < x / 3) by lia.
  set (n := Z.log2 (x / 3)).
  assert (Hn : 1024 <= n) by (apply Z.log2_le_pow2; assumption).
  destruct (Z.log2_spec (x / 3) Hq0) as [Hlow _]. fold n in Hlow.
  set (e := n - 52).
  assert (He : 0 <= e) by (unfold e; lia).
  replace (0 <=? e) with true by (symmetry; apply Z.leb_le; exact He).
  cbn [andb].
  assert (Hpe : 0 < 2 ^ e) by (apply Z.pow_pos_nonneg; lia).
  assert (Hsplit : 2 ^ n = 2 ^ 52 * 2 ^ e).
  { unfold e. rewrite <- Z.pow_add_r by lia. f_equal. lia. }
  assert (Hk : 2 ^ 52 <= x / (3 * 2 ^ e)).
  { rewrite <- Z.div_div by lia.
    apply Z.div_le_lower_bound; [exact Hpe|].
    rewrite Z.mul_comm. rewrite <- Hsplit. exact Hlow. }
  pose proof (round_half_even_lower x (3 * 2 ^ e)) as Hm.
  set (m := Py.round_half_even x (3 * 2 ^ e)) in *.
  assert (Hbig : 2 ^ 1024 <= m * 2 ^ e).
  { apply Z.le_trans with (2 ^ n).
    - apply Z.pow_le_mono_r; lia.
    - rewrite Hsplit. apply Z.mul_le_mono_nonneg_r; lia. }
  apply Z.leb_le in Hbig. rewrite Hbig. reflexivity.
Qed.

(** X19: a height that [int] accepts but so large that
    [height * 4 / 3] exceeds the range of a float
    (3 * 2^1024 <= |height * 4|), in a pair that is not 4:3, does not
    crash the program: the [OverflowError] of the division is caught
    with the parse errors, and the resolution is refused as invalid
    right after the not-4:3 warning.  (A literal beyond the digit limit
    of [int] is refused earlier, as a parse error, without the
    warning.) *)
Theorem huge_height_refused (w : world) (resolution : string)
    (res_w res_h : Z) :
  outcome (parse_resolution w resolution) = Val (res_w, res_h) ->
  res_w * 3 <> res_h * 4 ->
  3 * 2 ^ 1024 <= Z.abs (res_h * 4) ->
  resolve_resolution w resolution
  = ([Print NotFourThree; Print InvalidResolution], Exn (SystemExit 1)).
Proof.
  intros Hparse Hne Hbig. unfold resolve_resolution.
  pose proof (parse_resolution_trace w resolution) as Ht.
  destruct (parse_resolution w resolution) as [t r].
  cbn [trace outcome fst snd] in Ht, Hparse. subst t r.
  rewrite bind_val. cbn [fst snd app]. unfold four_thirds.
  apply Z.eqb_neq in Hne. rewrite Hne. cbn [negb].
  rewrite (truediv3_overflow _ Hbig). reflexivity.
Qed.

Lemma huge_height_refused_2_pow_1024 :
  resolve_resolution five_clips ("1x" ++ Py.str_of_int (2 ^ 1024))
  = ([Print NotFourThree; Print InvalidResolution], Exn (SystemExit 1)).
Proof.
  apply (huge_height_refused five_clips ("1x" ++ Py.str_of_int (2 ^ 1024)) 1
           (2 ^ 1024)).
  - vm_compute. reflexivity.
  - vm_compute. discriminate.
  - vm_compute. discriminate.
Defined.

(** ** One encoder run per selected clip *)

(** X20: a failing clip never stops the loop.  Once the selection has
    succeeded, the processes of the run are, in this order: the version
    probe, the inspections of the sample when the check is on, one
    encoder per selected clip in the order of the selection, each with
    the scratch name of its own index, and last the concatenation,
    which is there exactly when the encoder has exited with status 0 on
    at least one clip. *)
Theorem every_clip_encoded_once (w : world) (input_dir output_file : string)
    (check_compatibility numbered : bool) (target : option (Z * Z))
    (position number : option Z) (t_sel : list event) (start_index : Z)
    (selected : list string) :
  ffmpeg_available w ->
  let video_files := find_video_files w input_dir None in
  video_files <> [] ->
  select_videos video_files position number
    = (t_sel, Val (Some (start_index, selected))) ->
  (check_compatibility = true -> ffprobe_installed w = true) ->
  let run := stitch_videos w input_dir output_file check_compatibility
               numbered target position number in
  let clips := Py.enumerate 1 selected in
  let encoder (c : Z * string) :=
    encode_cmd (snd c)
      (vf_filter numbered (fst (target_of target)) (snd (target_of target))
         (display_number position number start_index (fst c)))
      (path_join (temp_dir w) ("processed_" ++ Py.fmt_05d (fst c) ++ ".mp4")) in
  let encoded (c : Z * string) := exit_code w (encoder c) =? 0 in
  let concatenation :=
    ["ffmpeg"; "-f"; "concat"; "-safe"; "0"; "-i";
     path_join (temp_dir w) "video_list.txt"; "-c"; "copy"; "-y";
     output_file] in
  let last := if existsb encoded clips then [concatenation] else [] in
  invocations (trace run)
  = (version_probe
     :: (if check_compatibility
         then map ffprobe_cmd (firstn 10 selected) else [])
     ++ map encoder clips ++ last)%list
  /\ List.length (map encoder clips) = List.length selected
  /\ popens (trace run) = last.
Proof.
  intros Ha video_files Hne Hsel Hp run clips encoder encoded concatenation
    last.
  destruct (stitch_videos_effects w input_dir output_file
              check_compatibility numbered target position number t_sel
              start_index selected Ha Hne Hsel Hp)
    as (Hinv & _ & Hpo & _).
  fold run in Hinv, Hpo. rewrite slice_prefix in Hinv by lia.
  change (Z.to_nat 10) with 10%nat in Hinv.
  unfold processed_of in Hinv, Hpo.
  rewrite is_empty_map_filter in Hinv, Hpo.
  assert (Hlast :
            (if negb (existsb
                        (clip_ok w numbered (fst (target_of target))
                           (snd (target_of target)) position number
                           start_index)
                        (Py.enumerate 1 selected))
             then []
             else [concat_cmd
                     (fst (manifest_of w
                             (map (fun c => clip_dst (temp_dir w) (fst c))
                                (filter
                                   (clip_ok w numbered
                                      (fst (target_of target))
                                      (snd (target_of target)) position
                                      number start_index)
                                   (Py.enumerate 1 selected)))))
                     output_file])
            = last).
  { unfold last. change (existsb encoded clips)
      with (existsb
              (clip_ok w numbered (fst (target_of target))
                 (snd (target_of target)) position number start_index)
              (Py.enumerate 1 selected)).
    destruct (existsb _ _); reflexivity. }
  rewrite Hlast in Hinv, Hpo.
  split; [exact Hinv|]. split; [|exact Hpo].
  rewrite length_map. apply enumerate_length.
Qed.

Lemma every_clip_encoded_once_five_clips :
  let run := stitch_videos five_clips "/v" "out.mp4" false false None
               (Some 2) (Some 2) in
  let filter_text :=
    "scale=-1:960,crop='min(iw,1280)':'min(ih,960)',"
    ++ "pad=1280:960:(ow-iw)/2:(oh-ih)/2" in
  let encoders :=
    [encode_cmd "/v/b.mp4" filter_text "/tmp/tmpx/processed_00001.mp4";
     encode_cmd "/v/c.mov" filter_text "/tmp/tmpx/processed_00002.mp4"] in
  let concatenation :=
    ["ffmpeg"; "-f"; "concat"; "-safe"; "0"; "-i";
     "/tmp/tmpx/video_list.txt"; "-c"; "copy"; "-y"; "out.mp4"] in
  invocations (trace run)
  = (version_probe :: [] ++ encoders ++ [concatenation])%list
  /\ List.length encoders = 2%nat
  /\ popens (trace run) = [concatenation].
Proof.
  apply (every_clip_encoded_once five_clips "/v" "out.mp4" false false None
           (Some 2) (Some 2) [Print (Selected 2 3); Print (Processing 2)] 1
           ["/v/b.mp4"; "/v/c.mov"]).
  - split; reflexivity.
  - vm_compute. discriminate.
  - reflexivity.
  - discriminate.
Defined.
